(** * A model of [scripts/generate_essentials_catalog.py]

    The script reads a tab-separated product dump, keeps the rows tagged for
    the United States, normalises every row into a catalogue item, ranks the
    items by scan count and writes the first [limit] of them as one JSON
    document.

    Conventions of the model.
    - A Python [str] is a Rocq [string], one [ascii] per code point; the
      model covers the code points 0..255 (Latin-1), on which [isspace] and
      [lower] below agree with CPython.
    - A Python [float] is an IEEE-754 binary64 value, [spec_float] with
      precision 53 and maximal exponent 1024.
    - A Python [int] is a [Z].
    - An exception is a value [Raise e] of the [result] type; code that
      cannot raise is a plain function.
    - A CSV row, [Dict[str, str]], is a [gmap string string]: every
      value is a string, as the annotation of [process_product] says.  The
      [None] that [csv.DictReader] stores for the fields a short line lacks
      is outside the model, and so is the [AttributeError] it leads to.
    - Opening, decoding and splitting the input file, the progress lines
      and the text that [json.dump] writes are outside the model: [main]
      takes the rows and returns the catalogue. *)

From Stdlib Require Import ZArith NArith List String Ascii Bool Lia.
From Stdlib Require Import Sorting.Sorted.
From Stdlib Require Import Floats.SpecFloat.
From stdpp Require Import gmap strings.

Import ListNotations.
Local Open Scope string_scope.
Local Open Scope Z_scope.

(** ** Exceptions *)

Inductive exn : Type :=
| ValueError
| IndexError.

Inductive result (A : Type) : Type :=
| Ok (a : A)
| Raise (e : exn).

Arguments Ok {A} a.
Arguments Raise {A} e.

Definition bind {A B : Type} (r : result A) (k : A -> result B) : result B :=
  match r with
  | Ok a => k a
  | Raise e => Raise e
  end.

Notation "'let!' x ':=' r 'in' k" := (bind r (fun x => k))
  (at level 10, x name, r at level 100, k at level 200).

(** ** Built-in string operations *)

Module PyStr.

Definition code (c : ascii) : N := N_of_ascii c.

(** [str.isspace] on one character. *)
Definition isspace (c : ascii) : bool :=
  let n := code c in
  ((9 <=? n) && (n <=? 13) || (28 <=? n) && (n <=? 32)
   || (n =? 133) || (n =? 160))%N.

(** [str.lower] on one character. *)
Definition lower_char (c : ascii) : ascii :=
  let n := code c in
  if ((65 <=? n) && (n <=? 90)
      || (192 <=? n) && (n <=? 222) && negb (n =? 215))%N
  then ascii_of_N (n + 32) else c.

Fixpoint lower (s : string) : string :=
  match s with
  | EmptyString => EmptyString
  | String c s' => String (lower_char c) (lower s')
  end.

(** Dropping the leading, and the trailing, characters that satisfy
    [sp]. *)
Fixpoint ltrim (sp : ascii -> bool) (s : string) : string :=
  match s with
  | EmptyString => EmptyString
  | String c s' => if sp c then ltrim sp s' else s
  end.

Fixpoint rtrim (sp : ascii -> bool) (s : string) : string :=
  match s with
  | EmptyString => EmptyString
  | String c s' =>
      match rtrim sp s' with
      | EmptyString => if sp c then EmptyString else String c EmptyString
      | r => String c r
      end
  end.

(** [s.strip()] *)
Definition strip (s : string) : string := rtrim isspace (ltrim isspace s).

(** [s.startswith(p)] *)
Fixpoint startswith (p s : string) : bool :=
  match p, s with
  | EmptyString, _ => true
  | String a p', String b s' => Ascii.eqb a b && startswith p' s'
  | String _ _, EmptyString => false
  end.

(** [p in s] *)
Fixpoint contains (p s : string) : bool :=
  startswith p s
  || match s with
     | EmptyString => false
     | String _ s' => contains p s'
     end.

(** [s.split(sep)] for a non-empty [sep]: the first fragment and the
    fragments after it.  [skip] counts the characters of a separator
    that was matched and is still to be passed over. *)
Fixpoint split_from (sep s : string) (skip : nat) : string * list string :=
  match s with
  | EmptyString => (EmptyString, [])
  | String c s' =>
      match skip with
      | S k => split_from sep s' k
      | O =>
          if startswith sep s
          then (EmptyString,
                let (f, r) := split_from sep s' (Nat.pred (String.length sep)) in
                f :: r)
          else let (f, r) := split_from sep s' O in (String c f, r)
      end
  end.

Definition split (sep s : string) : list string :=
  let (f, r) := split_from sep s O in f :: r.

(** [s.split()]: the maximal runs of non-whitespace characters. *)
Fixpoint split_ws (s : string) : list string :=
  match s with
  | EmptyString => []
  | String c s' =>
      if isspace c then split_ws s'
      else match s' with
           | EmptyString => [String c EmptyString]
           | String c' _ =>
               if isspace c' then String c EmptyString :: split_ws s'
               else match split_ws s' with
                    | w :: ws => String c w :: ws
                    | [] => [String c EmptyString]
                    end
           end
  end.

(** [l[0]] *)
Definition first {A : Type} (l : list A) : result A :=
  match l with
  | x :: _ => Ok x
  | [] => Raise IndexError
  end.

End PyStr.

(** ** Built-in numbers: [float(s)], [int(s)] and binary64 arithmetic *)

Module PyNum.
Import PyStr.

Definition prec : Z := 53.
Definition emax : Z := 1024.

(** [0.0] *)
Definition zero : spec_float := S754_zero false.

(** An [int] used where a [float] is expected, rounded to nearest; the
    script does so with 0 and 1000, which are exact. *)
Definition of_int (z : Z) : spec_float := binary_normalize prec emax z 0 false.

(** [x / y] on floats, for a non-zero [y]. *)
Definition div (x y : spec_float) : spec_float := SFdiv prec emax x y.

(** [x == y], [x < y] and [x <= y] on floats. *)
Definition eqb (x y : spec_float) : bool := SFeqb x y.
Definition leb (x y : spec_float) : bool := SFleb x y.

Definition is_digit (c : ascii) : bool :=
  ((48 <=? code c) && (code c <=? 57))%N.

Definition digit_value (c : ascii) : Z := Z.of_N (code c) - 48.

(** The white space that [int] and [float] skip around a number: the
    C locale's, and the two non-ASCII spaces below 256, which CPython
    rewrites to a blank before it parses. *)
Definition num_isspace (c : ascii) : bool :=
  let n := code c in
  ((9 <=? n) && (n <=? 13) || (n =? 32) || (n =? 133) || (n =? 160))%N.

Definition num_strip (s : string) : string :=
  rtrim num_isspace (ltrim num_isspace s).

(** Underscores in numeric literals: one is allowed only between two
    digits.  [prev] is the character before [s]. *)
Fixpoint drop_underscores (prev : ascii) (s : string) : result string :=
  match s with
  | EmptyString =>
      if Ascii.eqb prev "_" then Raise ValueError else Ok EmptyString
  | String c s' =>
      if Ascii.eqb c "_"
      then if is_digit prev then drop_underscores c s' else Raise ValueError
      else if Ascii.eqb prev "_" && negb (is_digit c) then Raise ValueError
      else let! r := drop_underscores c s' in Ok (String c r)
  end.

Definition NUL : ascii := ascii_of_N 0.

(** The longest prefix of digits, and what follows it. *)
Fixpoint span_digits (s : string) : string * string :=
  match s with
  | EmptyString => (EmptyString, EmptyString)
  | String c s' =>
      if is_digit c
      then let (d, r) := span_digits s' in (String c d, r)
      else (EmptyString, s)
  end.

Fixpoint digits_value (acc : Z) (s : string) : Z :=
  match s with
  | EmptyString => acc
  | String c s' => digits_value (10 * acc + digit_value c) s'
  end.

(** An optional sign: [true] for a minus. *)
Definition take_sign (s : string) : bool * string :=
  match s with
  | String c s' =>
      if Ascii.eqb c "-" then (true, s')
      else if Ascii.eqb c "+" then (false, s')
      else (false, s)
  | EmptyString => (false, s)
  end.

(** What a string denotes as a float, before rounding: an infinity, a
    NaN, or [mant * 10 ^ exp10] where [mant] was written with [ndigits]
    digits. *)
Inductive literal : Type :=
| LInf
| LNan
| LDec (mant : Z) (ndigits : nat) (exp10 : Z).

(** The exponent part, which runs to the end of the string: nothing, or
    [e] or [E], an optional sign and at least one digit. *)
Definition parse_exponent (s : string) : result Z :=
  match s with
  | EmptyString => Ok 0
  | String c s' =>
      if Ascii.eqb c "e" || Ascii.eqb c "E"
      then
        let (neg, s'') := take_sign s' in
        let (ds, rest) := span_digits s'' in
        if String.eqb ds "" || negb (String.eqb rest "")
        then Raise ValueError
        else Ok (if neg then - digits_value 0 ds else digits_value 0 ds)
      else Raise ValueError
  end.

Definition parse_unsigned (s : string) : result literal :=
  let l := lower s in
  if String.eqb l "inf" || String.eqb l "infinity" then Ok LInf
  else if String.eqb l "nan" then Ok LNan
  else
    let (ip, r1) := span_digits s in
    let (fp, r2) :=
      match r1 with
      | String c r => if Ascii.eqb c "." then span_digits r else (EmptyString, r1)
      | EmptyString => (EmptyString, r1)
      end in
    if String.eqb ip "" && String.eqb fp "" then Raise ValueError
    else
      let! e := parse_exponent r2 in
      Ok (LDec (digits_value 0 (ip ++ fp))
               (String.length (ip ++ fp))
               (e - Z.of_nat (String.length fp))).

(** [mant * 10 ^ exp10], correctly rounded to binary64.  The two
    comparisons with 400 only keep the powers of ten small: beyond them
    the value overflows to an infinity or rounds to zero. *)
Definition decimal_value (neg : bool) (mant : Z) (ndigits : nat) (exp10 : Z)
  : spec_float :=
  if mant =? 0 then S754_zero neg
  else if 400 <? exp10 then S754_infinity neg
  else if exp10 + Z.of_nat ndigits <? - 400 then S754_zero neg
  else if 0 <=? exp10
  then binary_normalize prec emax (cond_Zopp neg (mant * 10 ^ exp10)) 0 neg
  else
    let '(q, e, l) := SFdiv_core_binary prec emax mant 0 (10 ^ (- exp10)) 0 in
    binary_round_aux prec emax neg q e l.

Definition literal_value (neg : bool) (l : literal) : spec_float :=
  match l with
  | LInf => S754_infinity neg
  | LNan => S754_nan
  | LDec m n e => decimal_value neg m n e
  end.

(** [float(s)] *)
Definition float (s : string) : result spec_float :=
  let! u := drop_underscores NUL s in
  let (neg, body) := take_sign (num_strip u) in
  let! l := parse_unsigned body in
  Ok (literal_value neg l).

(** The default of [sys.get_int_max_str_digits()]. *)
Definition int_max_str_digits : nat := 4300.

(** [int(s)] *)
Definition int (s : string) : result Z :=
  let! u := drop_underscores NUL s in
  let (neg, body) := take_sign (num_strip u) in
  let (ds, rest) := span_digits body in
  if String.eqb ds "" || negb (String.eqb rest "") then Raise ValueError
  else if (int_max_str_digits <? String.length ds)%nat then Raise ValueError
  else Ok (if neg then - digits_value 0 ds else digits_value 0 ds).

End PyNum.

(** ** The script *)

Import PyStr PyNum.

(** [row.get(key, dflt)] *)
Definition get (row : gmap string string) (key dflt : string) : string :=
  default dflt (row !! key).

(** The truth value of [row.get(key)], which is [None] for a missing key. *)
Definition get_truthy (row : gmap string string) (key : string) : bool :=
  match row !! key with
  | Some v => negb (String.eqb v "")
  | None => false
  end.

(** [s or None] *)
Definition or_none (s : string) : option string :=
  if String.eqb s "" then None else Some s.

Record Nutrition : Type := {
  calories : spec_float;
  protein : spec_float;
  carbohydrates : spec_float;
  fat : spec_float;
  saturatedFat : spec_float;
  fiber : spec_float;
  sugar : spec_float;
  sodium : spec_float
}.

Record CatalogItem : Type := {
  barcode : string;
  name : string;
  brand : option string;
  category : string;
  nutrition : Nutrition;
  servingSize : option string;
  ingredients : option (list string)
}.

Record Catalog : Type := {
  version : string;
  generatedAt : string;
  productCount : Z;
  products : list CatalogItem
}.

(** The number text that [parse_nutrition_value] hands to [float]. *)
Definition cleaned (value : string) : result string :=
  if contains " " value then first (split_ws value) else Ok value.

Definition parse_nutrition_value (value : string) : spec_float :=
  if String.eqb value "" || String.eqb (strip value) "" then zero
  else
    match (let! c := cleaned value in float c) with
    | Ok x => x
    | Raise ValueError => zero
    | Raise IndexError => zero
    end.

(** The loop over the separators of [parse_ingredients]: the fragments for
    the first separator that occurs in the text, [[]] when none does. *)
Fixpoint split_ingredients (seps : list string) (ingredients_text : string)
  : list string :=
  match seps with
  | [] => []
  | sep :: seps' =>
      if contains sep ingredients_text
      then
        let parts := split sep ingredients_text in
        map (fun i => lower (strip i))
            (List.filter (fun i => negb (String.eqb (strip i) "")) parts)
      else split_ingredients seps' ingredients_text
  end.

Definition separators : list string := [", "; "; "; " - "].

Definition parse_ingredients (ingredients_text : string) : list string :=
  if String.eqb ingredients_text "" || String.eqb (strip ingredients_text) ""
  then []
  else
    let ingredients := split_ingredients separators ingredients_text in
    let ingredients :=
      match ingredients with
      | [] => [lower (strip ingredients_text)]
      | _ :: _ => ingredients
      end in
    firstn 20 ingredients.

Definition process_product (row : gmap string string)
  : result (option CatalogItem) :=
  let barcode := strip (get row "code" "") in
  let name := strip (get row "product_name" "") in
  if String.eqb barcode "" || String.eqb name ""
     || (String.length barcode <? 8)%nat
  then Ok None
  else
    let nutrition := {|
      calories := parse_nutrition_value (get row "energy-kcal_100g" "");
      protein := parse_nutrition_value (get row "proteins_100g" "");
      carbohydrates := parse_nutrition_value (get row "carbohydrates_100g" "");
      fat := parse_nutrition_value (get row "fat_100g" "");
      saturatedFat := parse_nutrition_value (get row "saturated-fat_100g" "");
      fiber := parse_nutrition_value (get row "fiber_100g" "");
      sugar := parse_nutrition_value (get row "sugars_100g" "");
      sodium :=
        div (parse_nutrition_value (get row "sodium_100g" "")) (of_int 1000)
    |} in
    if eqb (calories nutrition) (of_int 0)
       && eqb (protein nutrition) (of_int 0)
       && eqb (carbohydrates nutrition) (of_int 0)
    then Ok None
    else
      let brand := or_none (strip (get row "brands" "")) in
      let! category :=
        (if get_truthy row "categories_en"
         then let! c := first (split "," (get row "categories_en" "")) in
              Ok (strip c)
         else Ok "other") in
      let serving_size := or_none (strip (get row "serving_size" "")) in
      let ingredients := parse_ingredients (get row "ingredients_text" "") in
      Ok (Some {|
        barcode := barcode;
        name := name;
        brand := brand;
        category := lower category;
        nutrition := nutrition;
        servingSize := serving_size;
        ingredients :=
          match ingredients with
          | [] => None
          | _ :: _ => Some ingredients
          end
      |}).

(** *** [main]

    The rows that [csv.DictReader] yields, the [--limit] argument and the
    text of [datetime.now(timezone.utc).isoformat()] are the inputs; the
    catalogue handed to [json.dump] is the output. *)

(** The row filter: [true] when the loop goes on to [process_product]. *)
Definition us_product (row : gmap string string) : bool :=
  let countries := lower (get row "countries_tags" "") in
  if negb (contains "united-states" countries)
     && negb (contains "en:united-states" countries)
  then false
  else true.

(** The scan count of a row: [int(...)] with [ValueError] caught. *)
Definition scan_count (row : gmap string string) : result Z :=
  match int (let v := get row "unique_scans_n" "0" in
             if String.eqb v "" then "0" else v) with
  | Ok n => Ok n
  | Raise ValueError => Ok 0
  | Raise e => Raise e
  end.

Record reading : Type := {
  found : list (Z * CatalogItem);
  skipped : nat
}.

(** One turn of the loop over the rows. *)
Definition read_row (st : reading) (row : gmap string string) : result reading :=
  if us_product row
  then
    let! product := process_product row in
    match product with
    | Some p =>
        let! scans := scan_count row in
        Ok {| found := found st ++ [(scans, p)]; skipped := skipped st |}
    | None => Ok {| found := found st; skipped := S (skipped st) |}
    end
  else Ok st.

Fixpoint read_rows (st : reading) (rows : list (gmap string string))
  : result reading :=
  match rows with
  | [] => Ok st
  | row :: rows' => let! st' := read_row st row in read_rows st' rows'
  end.

(** [l.sort(key=lambda x: x[0], reverse=True)]: the sort is stable, also
    when reversed, so an element goes in front of the first element whose
    key is not greater than its own. *)
Fixpoint insert_desc {A : Type} (x : Z * A) (l : list (Z * A)) : list (Z * A) :=
  match l with
  | [] => [x]
  | y :: l' => if fst y <=? fst x then x :: l else y :: insert_desc x l'
  end.

Fixpoint sort_desc {A : Type} (l : list (Z * A)) : list (Z * A) :=
  match l with
  | [] => []
  | x :: l' => insert_desc x (sort_desc l')
  end.

(** [l[:stop]] *)
Definition slice_to {A : Type} (l : list A) (stop : Z) : list A :=
  if stop <? 0
  then firstn (Z.to_nat (Z.max 0 (Z.of_nat (length l) + stop))) l
  else firstn (Z.to_nat stop) l.

(** The ranked pairs that survive the truncation, and their items. *)
Definition ranked {A : Type} (found : list (Z * A)) (limit : Z) : list (Z * A) :=
  slice_to (sort_desc found) limit.

Definition top_products {A : Type} (found : list (Z * A)) (limit : Z) : list A :=
  map snd (ranked found limit).

Definition make_catalog (now : string) (top : list CatalogItem) : Catalog := {|
  version := "1.0.0";
  generatedAt := now;
  productCount := Z.of_nat (length top);
  products := top
|}.

Definition main (rows : list (gmap string string)) (limit : Z) (now : string)
  : result Catalog :=
  let! st := read_rows {| found := []; skipped := 0 |} rows in
  Ok (make_catalog now (top_products (found st) limit)).

(** *** The JSON document

    [json.dump] writes the tree of the value it is given; [dump] is that
    tree, with the members of an object in insertion order. *)

#[local] Unset Elimination Schemes.
Inductive json : Type :=
| JNull
| JString (s : string)
| JInt (n : Z)
| JFloat (x : spec_float)
| JArray (elements : list json)
| JObject (members : list (string * json)).
#[local] Set Elimination Schemes.

Definition dump_option {A : Type} (f : A -> json) (o : option A) : json :=
  match o with
  | Some a => f a
  | None => JNull
  end.

Definition dump_nutrition (n : Nutrition) : json :=
  JObject [("calories", JFloat (calories n));
           ("protein", JFloat (protein n));
           ("carbohydrates", JFloat (carbohydrates n));
           ("fat", JFloat (fat n));
           ("saturatedFat", JFloat (saturatedFat n));
           ("fiber", JFloat (fiber n));
           ("sugar", JFloat (sugar n));
           ("sodium", JFloat (sodium n))].

Definition dump_item (p : CatalogItem) : json :=
  JObject [("barcode", JString (barcode p));
           ("name", JString (name p));
           ("brand", dump_option JString (brand p));
           ("category", JString (category p));
           ("nutrition", dump_nutrition (nutrition p));
           ("servingSize", dump_option JString (servingSize p));
           ("ingredients",
            dump_option (fun l => JArray (map JString l)) (ingredients p))].

Definition dump (c : Catalog) : json :=
  JObject [("version", JString (version c));
           ("generatedAt", JString (generatedAt c));
           ("productCount", JInt (productCount c));
           ("products", JArray (map dump_item (products c)))].

(** Reading a member of a parsed document. *)
Fixpoint member_of (key : string) (members : list (string * json)) : option json :=
  match members with
  | [] => None
  | (k, v) :: rest => if String.eqb k key then Some v else member_of key rest
  end.

Definition member (key : string) (doc : json) : option json :=
  match doc with
  | JObject members => member_of key members
  | _ => None
  end.

(** ** Notions used to state the properties *)

Local Open Scope list_scope.

(** The pairs of [l] whose score is [k], in the order of [l]. *)
Definition with_score {A : Type} (k : Z) (l : list (Z * A)) : list (Z * A) :=
  List.filter (fun x => fst x =? k) l.

(** No pair of [l] is followed by a pair with a greater score. *)
Definition descending {A : Type} (l : list (Z * A)) : Prop :=
  StronglySorted (fun x y => fst y <= fst x) l.

(** [x] occurs in [l] at some position and [y] at a later one. *)
Definition before {A : Type} (x y : A) (l : list A) : Prop :=
  exists l1 l2 l3, l = l1 ++ x :: l2 ++ y :: l3.

(** Every character of [s] satisfies [p]. *)
Fixpoint all_chars (p : ascii -> bool) (s : string) : bool :=
  match s with
  | EmptyString => true
  | String c s' => p c && all_chars p s'
  end.

(** [s] is empty or holds white space only. *)
Definition blank (s : string) : bool := all_chars isspace s.

(** [s] holds no white space. *)
Definition no_space (s : string) : bool := all_chars (fun c => negb (isspace c)) s.

(** [float(s)], with 0.0 for a string that is not a number. *)
Definition float_or_zero (s : string) : spec_float :=
  match float s with
  | Ok x => x
  | Raise _ => zero
  end.

(** The numeric field parser in the words of the specification: split on
    white space, take the first token, parse it, 0.0 on any failure. *)
Definition first_token_value (value : string) : spec_float :=
  match split_ws value with
  | token :: _ => float_or_zero token
  | [] => zero
  end.

(** The ingredient parser in the words of the specification: split on the
    first delimiter, in priority order, that occurs in the text; trim and
    lowercase every fragment; drop the empty ones; the whole text, trimmed
    and lowercased, when no delimiter occurs; at most 20 entries. *)
Definition first_delimiter (text : string) : option string :=
  List.find (fun sep => contains sep text) separators.

Definition ingredients_as_specified (text : string) : list string :=
  firstn 20
    match first_delimiter text with
    | Some sep =>
        List.filter (fun i => negb (String.eqb i ""))
                    (map (fun i => lower (strip i)) (split sep text))
    | None => [lower (strip text)]
    end.


(** The number text of a raw field begins, white space aside, with a
    minus sign. *)
Definition minus_led (value : string) : bool :=
  match cleaned value with
  | Ok c => startswith "-" (num_strip c)
  | Raise _ => false
  end.

(** The number text of a raw field, white space and sign aside, reads
    nan in any letter case. *)
Definition spells_nan (value : string) : bool :=
  match cleaned value with
  | Ok c => String.eqb (lower (snd (take_sign (num_strip c)))) "nan"
  | Raise _ => false
  end.


(** A raw field that does not hold a number: it is blank, or [float]
    refuses the text handed to it. *)
Definition unparsable (value : string) : Prop :=
  blank value = true
  \/ exists c e, cleaned value = Ok c /\ float c = Raise e.

(** The eight nutrition fields: the key of the raw field in a row, the
    field of the item, and the conversion between the two. *)
Inductive nutrient : Type :=
| Calories | Protein | Carbohydrates | Fat | SaturatedFat | Fiber | Sugar
| Sodium.

Definition raw_key (n : nutrient) : string :=
  match n with
  | Calories => "energy-kcal_100g"
  | Protein => "proteins_100g"
  | Carbohydrates => "carbohydrates_100g"
  | Fat => "fat_100g"
  | SaturatedFat => "saturated-fat_100g"
  | Fiber => "fiber_100g"
  | Sugar => "sugars_100g"
  | Sodium => "sodium_100g"
  end.

Definition field (n : nutrient) (v : Nutrition) : spec_float :=
  match n with
  | Calories => calories v
  | Protein => protein v
  | Carbohydrates => carbohydrates v
  | Fat => fat v
  | SaturatedFat => saturatedFat v
  | Fiber => fiber v
  | Sugar => sugar v
  | Sodium => sodium v
  end.

Definition converted (n : nutrient) (x : spec_float) : spec_float :=
  match n with
  | Sodium => div x (of_int 1000)
  | _ => x
  end.

(** The ranking in the words of the specification: the pairs stably
    sorted by score, highest first, cut to the first [limit] of them. *)
Definition first_by_score {A : Type} (found : list (Z * A)) (limit : Z) : list A :=
  map snd (firstn (Z.to_nat limit) (sort_desc found)).

(** ** Notions used to state further properties *)

(** [s] is empty or starts with a character that [sp] rejects. *)
Definition no_lead (sp : ascii -> bool) (s : string) : Prop :=
  match s with
  | EmptyString => True
  | String c _ => sp c = false
  end.

(** [sep.join(l)] *)
Fixpoint join (sep : string) (l : list string) : string :=
  match l with
  | [] => ""
  | [f] => f
  | f :: l' => (f ++ sep ++ join sep l')%string
  end.

(** What one row adds to the accumulated list: its scan count and item
    when it passes the filter and the normalizer, nothing otherwise. *)
Definition accepted (row : gmap string string) : list (Z * CatalogItem) :=
  if us_product row
  then match process_product row, scan_count row with
       | Ok (Some p), Ok n => [(n, p)]
       | _, _ => []
       end
  else [].

(** A row that passes the filter and that the normalizer rejects. *)
Definition rejected (row : gmap string string) : bool :=
  us_product row
  && match process_product row with
     | Ok None => true
     | _ => false
     end.

(** The keys that [process_product] reads. *)
Definition read_keys : list string :=
  ["code"; "product_name"; "energy-kcal_100g"; "proteins_100g";
   "carbohydrates_100g"; "fat_100g"; "saturated-fat_100g"; "fiber_100g";
   "sugars_100g"; "sodium_100g"; "brands"; "categories_en"; "serving_size";
   "ingredients_text"].

(** ** Sample rows *)

Definition cola_row : gmap string string :=
  list_to_map [("code", " 0123456789 "); ("product_name", "Cola");
               ("energy-kcal_100g", "42 kcal"); ("sodium_100g", "200");
               ("categories_en", " Beverages ,Sodas");
               ("ingredients_text", "Water, Sugar, Salt");
               ("countries_tags", "en:france,en:United-States");
               ("unique_scans_n", "12")].

Definition cola_item : CatalogItem := {|
  barcode := "0123456789";
  name := "Cola";
  brand := None;
  category := "beverages";
  nutrition := {|
    calories := float_or_zero "42";
    protein := zero;
    carbohydrates := zero;
    fat := zero;
    saturatedFat := zero;
    fiber := zero;
    sugar := zero;
    sodium := float_or_zero "0.2"
  |};
  servingSize := None;
  ingredients := Some ["water"; "sugar"; "salt"]
|}.

(** A number and a unit with a tab, and with a no-break space, between
    them. *)
Definition ten_tab_g : string := "10" ++ String "009" "g".
Definition ten_nbsp_g : string := "10" ++ String "160" "g".

(** A row of another country, valid in every other respect. *)
Definition french_row : gmap string string :=
  list_to_map [("code", "3017620422003"); ("product_name", "Pate a tartiner");
               ("energy-kcal_100g", "539"); ("countries_tags", "en:france");
               ("unique_scans_n", "900")].



(** * Properties *)

(** ** The built-ins on sample inputs

    The values on the right are those of CPython 3.11. *)

Example isspace_table :
  List.filter (fun n => isspace (ascii_of_nat n)) (seq 0 256)
  = [9; 10; 11; 12; 13; 28; 29; 30; 31; 32; 133; 160]%nat.
Proof. reflexivity. Qed.

Example lower_table :
  List.filter (fun n => negb (Ascii.eqb (lower_char (ascii_of_nat n)) (ascii_of_nat n)))
              (seq 0 256)
  = (seq 65 26 ++ seq 192 23 ++ seq 216 7)%nat
  /\ forallb (fun n => Ascii.eqb (lower_char (ascii_of_nat n)) (ascii_of_nat (n + 32)))
             (seq 65 26 ++ seq 192 23 ++ seq 216 7) = true.
Proof. split; reflexivity. Qed.

Example strip_sample : strip ("  a b " ++ String "009" "") = "a b".
Proof. reflexivity. Qed.

Example split_sample :
  split ", " "a, , b," = ["a"; ""; "b,"] /\ split "," "" = [""]
  /\ split "ab" "aababab" = ["a"; ""; ""; ""].
Proof. repeat split. Qed.

Example split_ws_sample :
  split_ws ("  10" ++ String "009" "g  x ") = ["10"; "g"; "x"]
  /\ split_ws "  " = [].
Proof. repeat split. Qed.

Example float_tenth : float "0.1" = Ok (S754_finite false 7205759403792794 (-56)).
Proof. reflexivity. Qed.

Example float_halfway_even :
  float "9007199254740993" = Ok (S754_finite false 4503599627370496 1).
Proof. reflexivity. Qed.

Example float_1e23 : float "1e23" = Ok (S754_finite false 5960464477539062 24).
Proof. reflexivity. Qed.

Example float_underscores :
  float "1_000.000_1" = Ok (S754_finite false 8796093901817302 (-43))
  /\ float "1__0" = Raise ValueError /\ float "1_" = Raise ValueError.
Proof. repeat split. Qed.

Example float_smallest :
  float "4.9e-324" = Ok (S754_finite false 1 (-1074))
  /\ float "2.4703282292062327e-324" = Ok (S754_zero false)
  /\ float "2.4703282292062328e-324" = Ok (S754_finite false 1 (-1074)).
Proof. repeat split. Qed.

Example float_largest :
  float "1.7976931348623158e308" = Ok (S754_finite false 9007199254740991 971)
  /\ float "1.7976931348623159e308" = Ok (S754_infinity false)
  /\ float "-1e400" = Ok (S754_infinity true).
Proof. repeat split. Qed.

Example float_special :
  float " -Infinity " = Ok (S754_infinity true) /\ float "NaN" = Ok S754_nan
  /\ float "-0" = Ok (S754_zero true) /\ float "" = Raise ValueError
  /\ float "1 2" = Raise ValueError /\ float "0x10" = Raise ValueError
  /\ float ".e5" = Raise ValueError /\ float "5." = Ok (S754_finite false 5629499534213120 (-50)).
Proof. repeat split. Qed.

Example int_sample :
  int " +1_000 " = Ok 1000 /\ int "-007" = Ok (-7) /\ int "1.0" = Raise ValueError
  /\ int "" = Raise ValueError /\ int "1__0" = Raise ValueError.
Proof. repeat split. Qed.

(** ** Strings *)

Section Strings.
Implicit Types (s t : string) (c : ascii) (p sp : ascii -> bool).

Lemma append_String c s t : (String c s ++ t)%string = String c (s ++ t)%string.
Proof. reflexivity. Qed.

Lemma append_empty t : ("" ++ t)%string = t.
Proof. reflexivity. Qed.

Lemma eqb_empty_false s : String.eqb s "" = false <-> s <> "".
Proof. apply String.eqb_neq. Qed.

Lemma lower_empty s : lower s = "" <-> s = "".
Proof. destruct s; cbn; split; congruence. Qed.

Lemma isspace_lower_char c : isspace (lower_char c) = isspace c.
Proof. destruct c as [[] [] [] [] [] [] [] []]; reflexivity. Qed.



Lemma all_chars_app p s t :
  all_chars p (s ++ t)%string = all_chars p s && all_chars p t.
Proof.
  induction s as [|c s IH]; [reflexivity|].
  rewrite append_String. cbn [all_chars]. now rewrite IH, andb_assoc.
Qed.



Lemma ltrim_all sp s : all_chars sp (ltrim sp s) = all_chars sp s.
Proof.
  induction s as [|c s IH]; cbn; [reflexivity|].
  destruct (sp c) eqn:E; cbn; [exact IH|now rewrite E].
Qed.

Lemma rtrim_empty sp s : rtrim sp s = "" <-> all_chars sp s = true.
Proof.
  induction s as [|c s IH]; cbn; [tauto|].
  destruct (rtrim sp s) as [|c' r].
  - destruct (sp c); cbn.
    + rewrite <- IH. tauto.
    + split; congruence.
  - rewrite andb_true_iff, <- IH. split; [congruence|intros [_ ?]; congruence].
Qed.

(** [s.strip() == ''] exactly when [s] is blank. *)
Lemma strip_empty s : strip s = "" <-> blank s = true.
Proof.
  unfold strip, blank. now rewrite rtrim_empty, ltrim_all.
Qed.


Lemma split_ws_not_blank s : blank s = false -> split_ws s <> [].
Proof.
  unfold blank. induction s as [|c s IH]; cbn [all_chars split_ws]; [discriminate|].
  destruct (isspace c); cbn [andb]; [exact IH|]. intros _.
  destruct s as [|c' s']; [discriminate|].
  destruct (isspace c'); [discriminate|].
  destruct (split_ws (String c' s')); discriminate.
Qed.

Lemma split_ws_step a b s :
  isspace a = false -> isspace b = false ->
  split_ws (String a (String b s))
  = match split_ws (String b s) with
    | w :: ws => String a w :: ws
    | [] => [String a ""]
    end.
Proof.
  intros Ha Hb.
  change (split_ws (String a (String b s)))
    with (if isspace a then split_ws (String b s)
          else if isspace b then String a "" :: split_ws (String b s)
               else match split_ws (String b s) with
                    | w :: ws => String a w :: ws
                    | [] => [String a ""]
                    end).
  now rewrite Ha, Hb.
Qed.

(** A token followed by white space is the first token. *)
Lemma split_ws_token s c t :
  s <> "" -> no_space s = true -> isspace c = true ->
  split_ws (s ++ String c t)%string = s :: split_ws t.
Proof.
  unfold no_space. induction s as [|a s IH]; [congruence|].
  intros _ Hs Hc. cbn [all_chars] in Hs. apply andb_true_iff in Hs.
  destruct Hs as [Ha Hs]. apply negb_true_iff in Ha.
  destruct s as [|b s].
  - rewrite append_String, append_empty. cbn [split_ws]. now rewrite Ha, Hc.
  - specialize (IH ltac:(discriminate) Hs Hc).
    assert (Hb : isspace b = false).
    { cbn [all_chars] in Hs. apply andb_true_iff in Hs.
      now apply negb_true_iff. }
    rewrite !append_String in *. rewrite split_ws_step by assumption.
    now rewrite IH.
Qed.

Lemma all_chars_split_ws p s :
  all_chars p s = true -> Forall (fun t => all_chars p t = true) (split_ws s).
Proof.
  induction s as [|c s IH]; cbn [split_ws all_chars]; [constructor|].
  rewrite andb_true_iff. intros [Hc Hs]. specialize (IH Hs).
  destruct (isspace c); [exact IH|].
  destruct s as [|c' s'].
  - constructor; [cbn; now rewrite Hc|constructor].
  - destruct (isspace c').
    + constructor; [cbn; now rewrite Hc|exact IH].
    + destruct (split_ws (String c' s')) as [|w ws].
      * constructor; [cbn; now rewrite Hc|constructor].
      * inversion IH; subst. constructor; [|assumption].
        cbn [all_chars]. rewrite Hc. assumption.
Qed.

Lemma startswith_app sub t : startswith sub (sub ++ t)%string = true.
Proof.
  induction sub as [|c sub IH]; [reflexivity|].
  rewrite append_String. cbn [startswith]. now rewrite Ascii.eqb_refl, IH.
Qed.

Lemma contains_app_r sub s t :
  contains sub t = true -> contains sub (s ++ t)%string = true.
Proof.
  intros H. induction s as [|c s IH]; [exact H|].
  rewrite append_String. cbn [contains]. rewrite IH. apply orb_true_r.
Qed.

Lemma contains_startswith sub s : startswith sub s = true -> contains sub s = true.
Proof. intros H. destruct s; cbn [contains]; now rewrite H. Qed.

(** [c not in s], for a one-character string [c]. *)
Lemma contains_char c s :
  contains (String c "") s = false <->
  all_chars (fun a => negb (Ascii.eqb c a)) s = true.
Proof.
  induction s as [|a s IH]; cbn [contains all_chars startswith]; [tauto|].
  rewrite andb_true_r, orb_false_iff, andb_true_iff, negb_true_iff, IH.
  reflexivity.
Qed.

(** The first entry of [s.split(',')]: the text up to the first comma. *)
Lemma split_comma s :
  exists f r,
    split "," s = f :: r
    /\ contains "," f = false
    /\ (s = f \/ exists t, s = (f ++ "," ++ t)%string).
Proof.
  unfold split.
  induction s as [|c s (f & r & IH & Hf & Hs)].
  - exists "", []. cbn. auto.
  - cbn [split_from startswith String.length Nat.pred].
    destruct (Ascii.eqb "," c) eqn:E; cbn [andb].
    + apply Ascii.eqb_eq in E. subst c.
      eexists "", _. split; [reflexivity|]. split; [reflexivity|].
      right. now exists s.
    + destruct (split_from "," s 0) as [f' r'] eqn:E'.
      injection IH as -> ->.
      exists (String c f), r. split; [reflexivity|]. split.
      * cbn [contains startswith]. now rewrite E, Hf.
      * destruct Hs as [->|[t ->]]; [now left|right; now exists t].
Qed.

End Strings.

(** ** The ranker *)

Section Ranker.
Context {A : Type}.
Implicit Types (x y : Z * A) (l s : list (Z * A)) (k limit : Z).

Lemma with_score_insert_desc k x l :
  with_score k (insert_desc x l) = with_score k (x :: l).
Proof.
  induction l as [|y l IH]; [reflexivity|].
  cbn [insert_desc]. destruct (fst y <=? fst x) eqn:E; [reflexivity|].
  apply Z.leb_gt in E.
  unfold with_score in *. cbn [List.filter] in *. rewrite IH.
  destruct (fst x =? k) eqn:Ex; [|reflexivity].
  apply Z.eqb_eq in Ex.
  destruct (fst y =? k) eqn:Ey; [|reflexivity].
  apply Z.eqb_eq in Ey. lia.
Qed.

Lemma with_score_sort_desc k l : with_score k (sort_desc l) = with_score k l.
Proof.
  induction l as [|x l IH]; [reflexivity|].
  cbn [sort_desc]. rewrite with_score_insert_desc.
  unfold with_score in *. cbn [List.filter]. now rewrite IH.
Qed.

Lemma In_with_score k x l : In x (with_score k l) <-> In x l /\ fst x = k.
Proof.
  unfold with_score. rewrite List.filter_In, Z.eqb_eq. reflexivity.
Qed.

Lemma In_insert_desc x y l : In y (insert_desc x l) <-> y = x \/ In y l.
Proof.
  induction l as [|z l IH]; cbn [insert_desc].
  - cbn. intuition.
  - destruct (fst z <=? fst x); cbn [In]; [intuition|].
    rewrite IH. intuition.
Qed.

Lemma descending_insert_desc x l : descending l -> descending (insert_desc x l).
Proof.
  unfold descending. induction 1 as [|y l Hl IH Hy]; cbn [insert_desc].
  - repeat constructor.
  - destruct (fst y <=? fst x) eqn:E.
    + apply Z.leb_le in E. constructor; [now constructor|].
      constructor; [exact E|].
      eapply List.Forall_impl; [|exact Hy]. cbn. intros z Hz. lia.
    + apply Z.leb_gt in E. constructor; [exact IH|].
      apply List.Forall_forall. intros z Hz. apply In_insert_desc in Hz.
      destruct Hz as [->|Hz]; [lia|].
      rewrite List.Forall_forall in Hy. now apply Hy.
Qed.

Lemma descending_sort_desc l : descending (sort_desc l).
Proof.
  induction l as [|x l IH]; cbn [sort_desc].
  - constructor.
  - now apply descending_insert_desc.
Qed.

(** A descending list is determined by its pairs of each score. *)
Lemma descending_unique s1 s2 :
  descending s1 -> descending s2 ->
  (forall k, with_score k s1 = with_score k s2) -> s1 = s2.
Proof.
  intros H1. revert s2.
  induction H1 as [|x s1 Hs1 IH Hx]; intros s2 H2 Heq.
  - destruct s2 as [|y s2]; [reflexivity|].
    specialize (Heq (fst y)). unfold with_score in Heq. cbn in Heq.
    rewrite Z.eqb_refl in Heq. discriminate.
  - destruct H2 as [|y s2 Hs2 Hy].
    + specialize (Heq (fst x)). unfold with_score in Heq. cbn in Heq.
      rewrite Z.eqb_refl in Heq. discriminate.
    + assert (Hk : fst x = fst y).
      { assert (Hxy : fst x <= fst y).
        { assert (Hin : In x (with_score (fst x) (y :: s2))).
          { rewrite <- Heq. apply In_with_score. split; [now left|reflexivity]. }
          apply In_with_score in Hin. destruct Hin as [[->|Hin] _]; [lia|].
          rewrite List.Forall_forall in Hy. now apply Hy. }
        assert (Hyx : fst y <= fst x).
        { assert (Hin : In y (with_score (fst y) (x :: s1))).
          { rewrite Heq. apply In_with_score. split; [now left|reflexivity]. }
          apply In_with_score in Hin. destruct Hin as [[->|Hin] _]; [lia|].
          rewrite List.Forall_forall in Hx. now apply Hx. }
        lia. }
      assert (Hhead : x = y).
      { specialize (Heq (fst x)). unfold with_score in Heq. cbn in Heq.
        rewrite Z.eqb_refl in Heq. rewrite <- Hk, Z.eqb_refl in Heq.
        now injection Heq. }
      subst y. f_equal. apply IH; [exact Hs2|].
      intros k. specialize (Heq k). unfold with_score in *. cbn in Heq.
      destruct (fst x =? k); [now injection Heq|exact Heq].
Qed.

Lemma slice_to_nonneg (B : Type) (l' : list B) limit :
  0 <= limit -> slice_to l' limit = firstn (Z.to_nat limit) l'.
Proof.
  intros H. unfold slice_to. destruct (limit <? 0) eqn:E; [|reflexivity].
  apply Z.ltb_lt in E. lia.
Qed.

Lemma slice_to_prefix (B : Type) (l' : list B) limit :
  exists n, slice_to l' limit = firstn n l'.
Proof.
  unfold slice_to. destruct (limit <? 0); eauto.
Qed.

End Ranker.

Section Before.
Context {B : Type}.
Implicit Types (x y : B) (l : list B) (f : B -> bool).

Lemma before_app_r x y l l' : before x y l -> before x y (l ++ l').
Proof.
  intros (l1 & l2 & l3 & ->). exists l1, l2, (l3 ++ l').
  now rewrite <- !app_assoc, <- !app_comm_cons, <- app_assoc.
Qed.

Lemma before_firstn x y n l : before x y (firstn n l) -> before x y l.
Proof.
  intros H. rewrite <- (firstn_skipn n l). now apply before_app_r.
Qed.

Lemma filter_eq_cons f l x m :
  List.filter f l = x :: m ->
  exists l1 l2, l = l1 ++ x :: l2 /\ List.filter f l1 = [] /\ List.filter f l2 = m.
Proof.
  induction l as [|z l IH]; cbn [List.filter]; [discriminate|].
  destruct (f z) eqn:E.
  - intros [= -> <-]. exists [], l. now cbn.
  - intros H. destruct (IH H) as (l1 & l2 & -> & H1 & H2).
    exists (z :: l1), l2. cbn [List.filter]. rewrite E. now split.
Qed.

Lemma filter_eq_app_cons f l m1 x m2 :
  List.filter f l = m1 ++ x :: m2 ->
  exists l1 l2, l = l1 ++ x :: l2 /\ List.filter f l1 = m1 /\ List.filter f l2 = m2.
Proof.
  revert l. induction m1 as [|z m1 IH]; intros l H.
  - destruct (filter_eq_cons _ _ _ _ H) as (l1 & l2 & ? & ? & ?). eauto.
  - cbn in H. destruct (filter_eq_cons _ _ _ _ H) as (l1 & l2 & -> & H1 & H2).
    destruct (IH _ H2) as (l3 & l4 & -> & H3 & H4).
    exists (l1 ++ z :: l3), l4. rewrite <- app_assoc. split; [reflexivity|].
    split; [|exact H4].
    rewrite List.filter_app. cbn [List.filter].
    assert (Hz : f z = true).
    { assert (Hin : In z (List.filter f (l1 ++ z :: l3 ++ x :: l4))).
      { rewrite H. now left. }
      now apply List.filter_In in Hin. }
    rewrite H1, Hz, H3. reflexivity.
Qed.

Lemma before_filter f x y l :
  f x = true -> f y = true ->
  before x y l <-> before x y (List.filter f l).
Proof.
  intros Hx Hy. split.
  - intros (l1 & l2 & l3 & ->).
    exists (List.filter f l1), (List.filter f l2), (List.filter f l3).
    rewrite List.filter_app. cbn [List.filter]. rewrite Hx.
    rewrite List.filter_app. cbn [List.filter]. now rewrite Hy.
  - intros (m1 & m2 & m3 & H).
    destruct (filter_eq_app_cons _ _ _ _ _ H) as (l1 & l' & -> & _ & H').
    destruct (filter_eq_app_cons _ _ _ _ _ H') as (l2 & l3 & -> & _ & _).
    now exists l1, l2, l3.
Qed.

End Before.

(** Two pairs with the same score are in the same order in the sorted list
    and in the list that was sorted. *)
Lemma before_sort_desc {A : Type} (x y : Z * A) (l : list (Z * A)) :
  fst x = fst y -> before x y (sort_desc l) <-> before x y l.
Proof.
  intros Hxy.
  rewrite (before_filter (fun z => fst z =? fst x) x y (sort_desc l)),
          (before_filter (fun z => fst z =? fst x) x y l);
    try (apply Z.eqb_eq; congruence).
  fold (with_score (fst x) (sort_desc l)). fold (with_score (fst x) l).
  now rewrite with_score_sort_desc.
Qed.

(** C1, as stated, fails for a negative limit: [l[:-1]] drops the last
    element instead of keeping none, so with limit -1 and the scores
    10, 50, 30 the output is the 50-item and the 30-item. *)
Lemma ranker_negative_limit :
  top_products [(10, "a"); (50, "b"); (30, "c")] (-1) = ["b"; "c"]
  /\ top_products [(10, "a"); (50, "b"); (30, "c")] (-1)
     <> first_by_score [(10, "a"); (50, "b"); (30, "c")] (-1).
Proof. split; [reflexivity|discriminate]. Qed.

(** C1, amended: for every list of (score, item) pairs and every limit
    that is not negative, the output of the ranker is the list stably
    sorted by score in descending order and cut to its first [limit]
    elements.  The sorted list is descending, holds for every score the
    pairs of the input with that score in the input's order, and is the
    only list with these two properties; two retained pairs with equal
    scores are in the order they had in the input; with limit 2 and the
    scores 10, 50, 30 the output is the 50-item and the 30-item. *)
Theorem ranker_stable_top (A : Type) (found : list (Z * A)) (limit : Z) :
  0 <= limit ->
  top_products found limit = first_by_score found limit
  /\ descending (sort_desc found)
  /\ (forall k, with_score k (sort_desc found) = with_score k found)
  /\ (forall s, descending s ->
                (forall k, with_score k s = with_score k found) ->
                s = sort_desc found)
  /\ (forall x y, fst x = fst y ->
                  before x y (ranked found limit) -> before x y found)
  /\ (forall a b c : A,
        top_products [(10, a); (50, b); (30, c)] 2 = [b; c]
        /\ length (top_products [(10, a); (50, b); (30, c)] 2) = 2%nat).
Proof.
  intros Hlimit.
  split; [|split; [|split; [|split; [|split]]]].
  - unfold top_products, ranked, first_by_score.
    now rewrite slice_to_nonneg.
  - apply descending_sort_desc.
  - intros k. apply with_score_sort_desc.
  - intros s Hs Heq. apply descending_unique;
      [exact Hs|apply descending_sort_desc|].
    intros k. now rewrite Heq, with_score_sort_desc.
  - intros x y Hxy Hb. unfold ranked in Hb.
    destruct (slice_to_prefix _ (sort_desc found) limit) as [n Hn].
    rewrite Hn in Hb. apply before_firstn in Hb.
    exact (proj1 (before_sort_desc x y found Hxy) Hb).
  - intros a b c. split; reflexivity.
Qed.

Lemma ranker_stable_top_witness :
  0 <= 2
  /\ top_products [(10, "a"); (50, "b"); (30, "c"); (50, "d")] 2
     = first_by_score [(10, "a"); (50, "b"); (30, "c"); (50, "d")] 2.
Proof.
  split; [lia|].
  apply (ranker_stable_top string [(10, "a"); (50, "b"); (30, "c"); (50, "d")] 2).
  lia.
Defined.

(** ** The ingredient parser *)

Section Ingredients.
Implicit Types (text sep : string).

(** The guard [not s or s.strip() == ''] tests that [s] is blank. *)
Lemma blank_guard text :
  String.eqb text "" || String.eqb (strip text) "" = blank text.
Proof.
  destruct (blank text) eqn:E.
  - apply strip_empty in E. rewrite E. apply orb_true_r.
  - assert (Hs : strip text <> "") by (rewrite strip_empty; congruence).
    assert (Ht : text <> "") by (intros ->; discriminate).
    apply eqb_empty_false in Hs, Ht. now rewrite Hs, Ht.
Qed.

Lemma clean_fragments (l : list string) :
  List.filter (fun i => negb (String.eqb i "")) (map (fun i => lower (strip i)) l)
  = map (fun i => lower (strip i))
        (List.filter (fun i => negb (String.eqb (strip i) "")) l).
Proof.
  induction l as [|i l IH]; [reflexivity|].
  cbn [map List.filter].
  assert (E : String.eqb (lower (strip i)) "" = String.eqb (strip i) "").
  { destruct (strip i); reflexivity. }
  rewrite E. destruct (String.eqb (strip i) ""); cbn [negb map]; now rewrite IH.
Qed.

Lemma split_ingredients_first text :
  split_ingredients separators text
  = match first_delimiter text with
    | Some sep =>
        List.filter (fun i => negb (String.eqb i ""))
                    (map (fun i => lower (strip i)) (split sep text))
    | None => []
    end.
Proof.
  unfold first_delimiter, separators. cbn [split_ingredients List.find].
  repeat match goal with
         | |- context [if contains ?sep text then _ else _] =>
             destruct (contains sep text)
         end;
    try reflexivity; now rewrite clean_fragments.
Qed.

Lemma parse_ingredients_eq text :
  parse_ingredients text
  = if blank text then []
    else firstn 20
           match split_ingredients separators text with
           | [] => [lower (strip text)]
           | i :: l => i :: l
           end.
Proof.
  unfold parse_ingredients. rewrite blank_guard.
  destruct (blank text); [reflexivity|].
  now destruct (split_ingredients separators text).
Qed.

Lemma split_ingredients_nonempty seps text :
  Forall (fun i => i <> "") (split_ingredients seps text).
Proof.
  induction seps as [|sep seps IH]; cbn [split_ingredients]; [constructor|].
  destruct (contains sep text); [|exact IH].
  apply List.Forall_forall. intros i Hi. apply List.in_map_iff in Hi.
  destruct Hi as (j & <- & Hj). apply List.filter_In in Hj.
  destruct Hj as [_ Hj]. apply negb_true_iff, eqb_empty_false in Hj.
  now rewrite lower_empty.
Qed.

Lemma Forall_firstn (A : Type) (P : A -> Prop) n (l : list A) :
  Forall P l -> Forall P (firstn n l).
Proof.
  intros H. apply List.Forall_forall. intros x Hx.
  rewrite List.Forall_forall in H. apply H.
  rewrite <- (firstn_skipn n l). apply List.in_or_app. now left.
Qed.

End Ingredients.

(** ** The row normalizer *)

Section Normalizer.
Implicit Types (row : gmap string string) (item : CatalogItem).

Lemma first_split_from sep s :
  first (split sep s) = Ok (fst (split_from sep s 0)).
Proof. unfold split. now destruct (split_from sep s 0). Qed.

(** [process_product] without the exception plumbing: indexing the
    result of [split] never fails. *)
Lemma process_product_eq row :
  process_product row
  = let barcode := strip (get row "code" "") in
    let name := strip (get row "product_name" "") in
    if String.eqb barcode "" || String.eqb name ""
       || (String.length barcode <? 8)%nat
    then Ok None
    else
      if eqb (parse_nutrition_value (get row "energy-kcal_100g" "")) zero
         && eqb (parse_nutrition_value (get row "proteins_100g" "")) zero
         && eqb (parse_nutrition_value (get row "carbohydrates_100g" "")) zero
      then Ok None
      else
        Ok (Some {|
          barcode := barcode;
          name := name;
          brand := or_none (strip (get row "brands" ""));
          category :=
            lower (if get_truthy row "categories_en"
                   then strip (fst (split_from "," (get row "categories_en" "") 0))
                   else "other");
          nutrition := {|
            calories := parse_nutrition_value (get row "energy-kcal_100g" "");
            protein := parse_nutrition_value (get row "proteins_100g" "");
            carbohydrates := parse_nutrition_value (get row "carbohydrates_100g" "");
            fat := parse_nutrition_value (get row "fat_100g" "");
            saturatedFat := parse_nutrition_value (get row "saturated-fat_100g" "");
            fiber := parse_nutrition_value (get row "fiber_100g" "");
            sugar := parse_nutrition_value (get row "sugars_100g" "");
            sodium :=
              div (parse_nutrition_value (get row "sodium_100g" "")) (of_int 1000)
          |};
          servingSize := or_none (strip (get row "serving_size" ""));
          ingredients :=
            match parse_ingredients (get row "ingredients_text" "") with
            | [] => None
            | i :: l => Some (i :: l)
            end
        |}).
Proof.
  unfold process_product. cbv zeta. cbn [calories protein carbohydrates].
  destruct (_ || _ || _); [reflexivity|].
  change (of_int 0) with zero.
  destruct (_ && _ && _); [reflexivity|].
  destruct (get_truthy row "categories_en").
  - rewrite first_split_from. cbn [bind].
    now destruct (parse_ingredients (get row "ingredients_text" "")).
  - cbn [bind].
    now destruct (parse_ingredients (get row "ingredients_text" "")).
Qed.

Lemma process_product_total row : exists r, process_product row = Ok r.
Proof.
  rewrite process_product_eq. cbv zeta.
  destruct (_ || _ || _); [eauto|]. destruct (_ && _ && _); eauto.
Qed.

(** What an emitted item holds. *)
Lemma process_product_Some row item :
  process_product row = Ok (Some item) ->
  barcode item = strip (get row "code" "")
  /\ name item = strip (get row "product_name" "")
  /\ (forall n, field n (nutrition item)
                = converted n (parse_nutrition_value (get row (raw_key n) "")))
  /\ category item
     = lower (if get_truthy row "categories_en"
              then strip (fst (split_from "," (get row "categories_en" "") 0))
              else "other")
  /\ ingredients item
     = match parse_ingredients (get row "ingredients_text" "") with
       | [] => None
       | i :: l => Some (i :: l)
       end.
Proof.
  rewrite process_product_eq. cbv zeta.
  destruct (_ || _ || _); [discriminate|].
  destruct (_ && _ && _); [discriminate|].
  intros [= <-]. cbn [barcode name nutrition category ingredients].
  repeat split. intros []; reflexivity.
Qed.

End Normalizer.

(** C2: the normalizer never raises; it returns the "no item" result
    exactly when the identifier is missing or shorter than 8 characters,
    or the name is missing, or calories, protein and carbohydrates all
    parse to zero; otherwise it returns an item.  The identifier and the
    name are the raw fields with surrounding white space removed, as the
    code reads them; the theorem holds for every row, whether it passed
    the row filter or not. *)
Theorem normalizer_rejects (row : gmap string string) :
  exists r,
    process_product row = Ok r
    /\ (r = None <->
        (strip (get row "code" "") = ""
         \/ (String.length (strip (get row "code" "")) < 8)%nat)
        \/ strip (get row "product_name" "") = ""
        \/ (eqb (parse_nutrition_value (get row "energy-kcal_100g" "")) zero = true
            /\ eqb (parse_nutrition_value (get row "proteins_100g" "")) zero = true
            /\ eqb (parse_nutrition_value (get row "carbohydrates_100g" "")) zero = true))
    /\ (r <> None -> exists item, r = Some item).
Proof.
  rewrite process_product_eq. cbv zeta.
  set (code := strip (get row "code" "")).
  set (nm := strip (get row "product_name" "")).
  set (cal := eqb (parse_nutrition_value (get row "energy-kcal_100g" "")) zero).
  set (pro := eqb (parse_nutrition_value (get row "proteins_100g" "")) zero).
  set (carb := eqb (parse_nutrition_value (get row "carbohydrates_100g" "")) zero).
  assert (Hreject : forall P : Prop, P ->
            exists r : option CatalogItem,
              Ok None = Ok r /\ (r = None <-> P) /\ (r <> None -> exists item, r = Some item)).
  { intros P HP. exists None. split; [reflexivity|].
    split; [tauto|congruence]. }
  destruct (String.eqb_spec code "") as [Hc|Hc]; cbn [orb];
    [apply Hreject; tauto|].
  destruct (String.eqb_spec nm "") as [Hn|Hn]; cbn [orb];
    [apply Hreject; tauto|].
  destruct (Nat.ltb_spec (String.length code) 8) as [Hl|Hl];
    [apply Hreject; tauto|].
  destruct cal, pro, carb; cbn [andb];
    try (apply Hreject; tauto);
    (eexists; split; [reflexivity|]; split; [|eauto];
     split; [discriminate|];
     intros [[H|H]|[H|(H1 & H2 & H3)]];
     [congruence|lia|congruence|discriminate]).
Qed.

(** The two records of the specification's test: all of calories, protein
    and carbohydrates zero with some fat is rejected; carbohydrates 5 is
    accepted. *)
Example rejects_fat_only :
  process_product
    (list_to_map [("code", "012345678"); ("product_name", "Oil");
                  ("energy-kcal_100g", "0"); ("proteins_100g", "0");
                  ("carbohydrates_100g", "0"); ("fat_100g", "100")])
  = Ok None.
Proof. vm_compute. reflexivity. Qed.

Example accepts_carbohydrates_only :
  exists item,
    process_product
      (list_to_map [("code", "012345678"); ("product_name", "Syrup");
                    ("energy-kcal_100g", "0"); ("proteins_100g", "0");
                    ("carbohydrates_100g", "5")])
    = Ok (Some item).
Proof. eexists. vm_compute. reflexivity. Qed.

(** C10: for every input string the ingredient parser returns at most 20
    entries, none of them empty; the list is empty exactly when the input
    is empty or white space only; when a delimiter occurs in a text that
    is not blank but every fragment trims to the empty string, the result
    is the one-element list of the whole text, trimmed and lowercased; and
    the [ingredients] field of an emitted item is absent exactly when the
    raw ingredient text is blank, and otherwise a list that is not empty. *)
Theorem ingredients_bounded_nonempty :
  (forall text,
      (length (parse_ingredients text) <= 20)%nat
      /\ Forall (fun i => i <> "") (parse_ingredients text)
      /\ (parse_ingredients text = [] <-> blank text = true)
      /\ (forall sep,
             blank text = false ->
             first_delimiter text = Some sep ->
             Forall (fun i => strip i = "") (split sep text) ->
             parse_ingredients text = [lower (strip text)]))
  /\ (forall row item,
         process_product row = Ok (Some item) ->
         (ingredients item = None
          <-> blank (get row "ingredients_text" "") = true)
         /\ (forall l, ingredients item = Some l ->
                       l <> [] /\ l = parse_ingredients (get row "ingredients_text" ""))).
Proof.
  assert (Hempty : forall text, parse_ingredients text = [] <-> blank text = true).
  { intros text. rewrite parse_ingredients_eq.
    destruct (blank text); [tauto|].
    destruct (split_ingredients separators text); cbn; split; discriminate. }
  split.
  - intros text. split; [|split; [|split]].
    + rewrite parse_ingredients_eq. destruct (blank text); [cbn; lia|].
      apply List.firstn_le_length.
    + rewrite parse_ingredients_eq. destruct (blank text) eqn:E; [constructor|].
      apply Forall_firstn.
      pose proof (split_ingredients_nonempty separators text) as H.
      destruct (split_ingredients separators text); [|exact H].
      constructor; [|constructor].
      rewrite lower_empty, strip_empty. congruence.
    + apply Hempty.
    + intros sep Hb Hsep Hall. rewrite parse_ingredients_eq, Hb.
      rewrite split_ingredients_first, Hsep, clean_fragments.
      assert (E : List.filter (fun i => negb (String.eqb (strip i) "")) (split sep text) = []).
      { induction Hall as [|i l Hi Hl IH]; [reflexivity|].
        cbn [List.filter]. now rewrite Hi, IH. }
      now rewrite E.
  - intros row item H.
    destruct (process_product_Some _ _ H) as (_ & _ & _ & _ & ->).
    specialize (Hempty (get row "ingredients_text" "")).
    destruct (parse_ingredients (get row "ingredients_text" "")) eqn:E.
    + split; [split; [intros _; now apply Hempty|reflexivity]|discriminate].
    + split; [split; [discriminate|]|].
      * intros Hb. apply Hempty in Hb. discriminate.
      * intros l' [= <-]. split; [discriminate|reflexivity].
Qed.

Lemma ingredients_bounded_nonempty_witness :
  (blank ", " = false
   /\ first_delimiter ", " = Some ", "
   /\ parse_ingredients ", " = [lower (strip ", ")])
  /\ (process_product cola_row = Ok (Some cola_item)
      /\ (ingredients cola_item = None
          <-> blank (get cola_row "ingredients_text" "") = true)).
Proof.
  split.
  - split; [reflexivity|]. split; [reflexivity|].
    apply (proj2 (proj2 (proj2 (proj1 ingredients_bounded_nonempty ", "))) ", ");
      [reflexivity|reflexivity|].
    repeat constructor.
  - assert (H : process_product cola_row = Ok (Some cola_item)) by reflexivity.
    split; [exact H|].
    apply (proj2 ingredients_bounded_nonempty cola_row cola_item H).
Defined.

(** C6, as stated, fails on two inputs.  For [", "] a delimiter occurs and
    both fragments are empty, yet the result is not the empty list of the
    dropped fragments but the trimmed text itself; for the empty text no
    delimiter occurs, yet the result is the empty list and not the
    one-element list of the (empty) trimmed text. *)
Lemma ingredients_not_as_specified :
  (parse_ingredients ", " = [","] /\ ingredients_as_specified ", " = [])
  /\ (parse_ingredients "" = [] /\ ingredients_as_specified "" = [""]).
Proof. repeat split. Qed.

(** C6, amended: a blank ingredient text parses to the empty list.  For
    every other text the parser splits on the first delimiter, in the
    priority order comma-space, semicolon-space, hyphen-with-spaces, that
    occurs anywhere in the text; every fragment is trimmed and lowercased,
    empty fragments are dropped, and the result is cut to the first 20
    entries; if none of the three delimiters occurs, or if no fragment is
    left, the result is the one-element list of the whole text, trimmed and
    lowercased.  "Water, Sugar, Salt" parses to "water", "sugar", "salt". *)
Theorem ingredients_split :
  (forall text,
      parse_ingredients text
      = if blank text then []
        else match ingredients_as_specified text with
             | [] => [lower (strip text)]
             | i :: l => i :: l
             end)
  /\ parse_ingredients "Water, Sugar, Salt" = ["water"; "sugar"; "salt"].
Proof.
  split; [|reflexivity].
  intros text. rewrite parse_ingredients_eq.
  destruct (blank text); [reflexivity|].
  unfold ingredients_as_specified. rewrite split_ingredients_first.
  destruct (first_delimiter text) as [sep|]; [|reflexivity].
  now destruct (List.filter _ _).
Qed.

(** ** The loop over the rows *)

Section Reading.
Implicit Types (row : gmap string string) (rows : list (gmap string string))
         (st : reading).

Lemma drop_underscores_raises prev s e :
  drop_underscores prev s = Raise e -> e = ValueError.
Proof.
  revert prev. induction s as [|c s IH]; intros prev; cbn [drop_underscores].
  - destruct (Ascii.eqb prev "_"); congruence.
  - destruct (Ascii.eqb c "_").
    + destruct (is_digit prev); [apply IH|congruence].
    + destruct (_ && _); [congruence|].
      destruct (drop_underscores c s) eqn:E; cbn [bind]; [discriminate|].
      intros [= <-]. now apply (IH c).
Qed.

Lemma int_raises s e : int s = Raise e -> e = ValueError.
Proof.
  unfold int. destruct (drop_underscores NUL s) as [u|e'] eqn:E; cbn [bind].
  - destruct (take_sign (num_strip u)) as [neg body].
    destruct (span_digits body) as [ds rest].
    destruct (_ || _); [congruence|].
    destruct (_ <? _)%nat; congruence.
  - intros [= <-]. now apply drop_underscores_raises in E.
Qed.

Lemma scan_count_total row : exists n, scan_count row = Ok n.
Proof.
  unfold scan_count.
  destruct (int _) as [n|e] eqn:E; [eauto|].
  apply int_raises in E. subst e. eauto.
Qed.

Lemma read_row_total st row : exists st', read_row st row = Ok st'.
Proof.
  unfold read_row. destruct (us_product row); [|eauto].
  destruct (process_product_total row) as [[p|] ->]; cbn [bind]; [|eauto].
  destruct (scan_count_total row) as [n ->]. cbn [bind]. eauto.
Qed.

Lemma read_rows_total rows st : exists st', read_rows st rows = Ok st'.
Proof.
  revert st. induction rows as [|row rows IH]; intros st; cbn [read_rows].
  - eauto.
  - destruct (read_row_total st row) as [st' ->]. cbn [bind]. apply IH.
Qed.

Lemma read_rows_app rows1 rows2 st :
  read_rows st (rows1 ++ rows2)
  = let! st' := read_rows st rows1 in read_rows st' rows2.
Proof.
  revert st. induction rows1 as [|row rows1 IH]; intros st; [reflexivity|].
  cbn [read_rows app]. destruct (read_row st row); cbn [bind]; [apply IH|reflexivity].
Qed.

(** A row that fails the filter leaves the state of the loop as it is. *)
Lemma read_row_foreign st row : us_product row = false -> read_row st row = Ok st.
Proof. unfold read_row. now intros ->. Qed.

End Reading.

(** C5: a record whose countries-tags field, lowercased, contains neither
    "united-states" nor "en:united-states" is excluded from the output:
    the loop passes over it without a change of state, whatever its other
    fields hold, so the catalogue is the one written for the input without
    that record. *)
Theorem foreign_row_excluded
    (rows1 rows2 : list (gmap string string)) (row : gmap string string)
    (limit : Z) (now : string) :
  contains "united-states" (lower (get row "countries_tags" "")) = false ->
  contains "en:united-states" (lower (get row "countries_tags" "")) = false ->
  (forall st, read_row st row = Ok st)
  /\ main (rows1 ++ row :: rows2) limit now = main (rows1 ++ rows2) limit now.
Proof.
  intros H1 H2.
  assert (Hrow : forall st, read_row st row = Ok st).
  { intros st. apply read_row_foreign. unfold us_product. now rewrite H1, H2. }
  split; [exact Hrow|].
  unfold main. rewrite !read_rows_app.
  destruct (read_rows _ rows1) as [st|e]; cbn [bind]; [|reflexivity].
  cbn [read_rows]. now rewrite Hrow.
Qed.

Lemma foreign_row_excluded_witness :
  contains "united-states" (lower (get french_row "countries_tags" "")) = false
  /\ contains "en:united-states" (lower (get french_row "countries_tags" "")) = false
  /\ main ([cola_row] ++ french_row :: [cola_row]) 10 "2024-01-01T00:00:00+00:00"
     = main ([cola_row] ++ [cola_row]) 10 "2024-01-01T00:00:00+00:00".
Proof.
  split; [reflexivity|]. split; [reflexivity|].
  apply (foreign_row_excluded [cola_row] [cola_row] french_row 10
           "2024-01-01T00:00:00+00:00"); reflexivity.
Defined.

(** The French sample row is a valid product: only the filter keeps it out. *)
Example french_row_valid :
  exists item, process_product french_row = Ok (Some item).
Proof. eexists. vm_compute. reflexivity. Qed.

(** C7: the category of a normalized record is the first comma-separated
    entry of the raw categories field, trimmed and lowercased, and it is
    "other" when that field is absent or empty.  The first entry is the
    text of the field up to its first comma. *)
Theorem category_first_entry (row : gmap string string) (item : CatalogItem) :
  process_product row = Ok (Some item) ->
  (row !! "categories_en" = None \/ row !! "categories_en" = Some "" ->
   category item = "other")
  /\ (forall c, row !! "categories_en" = Some c -> c <> "" ->
        exists entry rest,
          split "," c = entry :: rest
          /\ contains "," entry = false
          /\ (c = entry \/ exists t, c = (entry ++ "," ++ t)%string)
          /\ category item = lower (strip entry)).
Proof.
  intros H. destruct (process_product_Some _ _ H) as (_ & _ & _ & -> & _).
  unfold get_truthy, get. split.
  - intros [-> | ->]; reflexivity.
  - intros c -> Hc. apply eqb_empty_false in Hc. rewrite Hc. cbn [negb default from_option id].
    destruct (split_comma c) as (entry & rest & Hsplit & Hentry & Hshape).
    exists entry, rest. repeat split; try assumption.
    unfold split in Hsplit. destruct (split_from "," c 0) as [f r].
    now injection Hsplit as -> _.
Qed.

Lemma category_first_entry_witness :
  process_product cola_row = Ok (Some cola_item)
  /\ cola_row !! "categories_en" = Some " Beverages ,Sodas"
  /\ category cola_item = lower (strip " Beverages ").
Proof.
  assert (H : process_product cola_row = Ok (Some cola_item)) by reflexivity.
  split; [exact H|]. split; [reflexivity|].
  destruct (category_first_entry cola_row cola_item H) as [_ Hc].
  destruct (Hc " Beverages ,Sodas" eq_refl ltac:(discriminate))
    as (entry & rest & Hsplit & _ & _ & Hcat).
  injection Hsplit as <- _. exact Hcat.
Defined.

(** C8: the sodium of an emitted item is the parsed raw sodium field
    divided by 1000; a raw sodium field "200" gives the float 0.2. *)
Theorem sodium_in_grams (row : gmap string string) (item : CatalogItem) :
  process_product row = Ok (Some item) ->
  sodium (nutrition item)
  = div (parse_nutrition_value (get row "sodium_100g" "")) (of_int 1000)
  /\ (get row "sodium_100g" "" = "200" ->
      float "0.2" = Ok (sodium (nutrition item))).
Proof.
  intros H. destruct (process_product_Some _ _ H) as (_ & _ & Hn & _).
  specialize (Hn Sodium). cbn [field converted raw_key] in Hn.
  split; [exact Hn|]. intros E. rewrite Hn, E. reflexivity.
Qed.

Lemma sodium_in_grams_witness :
  process_product cola_row = Ok (Some cola_item)
  /\ get cola_row "sodium_100g" "" = "200"
  /\ float "0.2" = Ok (sodium (nutrition cola_item)).
Proof.
  assert (H : process_product cola_row = Ok (Some cola_item)) by reflexivity.
  split; [exact H|]. split; [reflexivity|].
  apply (sodium_in_grams cola_row cola_item H). reflexivity.
Defined.

(** C9: the catalogue written for a ranked, truncated sequence of items has
    version "1.0.0", a product count equal to the length of the sequence,
    and the sequence itself under "products"; in the JSON document the
    number under "productCount" is the length of the array under
    "products"; and this is the catalogue that [main] writes. *)
Theorem catalog_written (now : string) (top : list CatalogItem) :
  (version (make_catalog now top) = "1.0.0"
   /\ generatedAt (make_catalog now top) = now
   /\ productCount (make_catalog now top) = Z.of_nat (length top)
   /\ products (make_catalog now top) = top)
  /\ (member "version" (dump (make_catalog now top)) = Some (JString "1.0.0")
      /\ member "productCount" (dump (make_catalog now top))
         = Some (JInt (Z.of_nat (length top)))
      /\ member "products" (dump (make_catalog now top))
         = Some (JArray (map dump_item top))
      /\ forall n elements,
           member "productCount" (dump (make_catalog now top)) = Some (JInt n) ->
           member "products" (dump (make_catalog now top)) = Some (JArray elements) ->
           n = Z.of_nat (length elements))
  /\ (forall rows limit,
        exists st,
          read_rows {| found := []; skipped := 0 |} rows = Ok st
          /\ main rows limit now
             = Ok (make_catalog now (top_products (found st) limit))).
Proof.
  split; [repeat split|]. split.
  - split; [reflexivity|]. split; [reflexivity|]. split; [reflexivity|].
    intros n elements [= <-] [= <-]. now rewrite length_map.
  - intros rows limit.
    destruct (read_rows_total rows {| found := []; skipped := 0 |}) as [st Hst].
    exists st. split; [exact Hst|]. unfold main. now rewrite Hst.
Qed.

(** ** Floats *)

Section Floats.
Implicit Types (x : spec_float) (s t u : string) (c : ascii).

(** *** Rounding keeps the sign and gives a number *)














(** *** What [float] reads *)









(** *** Texts without digits and underscores *)











End Floats.

(** ** The numeric field parser *)

Section NumericField.
Implicit Types (value : string).

Lemma cleaned_not_blank value :
  blank value = false ->
  exists c, cleaned value = Ok c
            /\ (contains " " value = true ->
                exists rest, split_ws value = c :: rest)
            /\ (contains " " value = false -> c = value).
Proof.
  intros Hb. unfold cleaned. destruct (contains " " value).
  - pose proof (split_ws_not_blank _ Hb) as Hne.
    destruct (split_ws value) as [|c rest]; [congruence|].
    exists c. cbn [first]. split; [reflexivity|]. split; [eauto|discriminate].
  - exists value. split; [reflexivity|]. split; [discriminate|reflexivity].
Qed.

Lemma parse_nutrition_value_eq value :
  parse_nutrition_value value
  = if blank value then zero
    else if contains " " value then first_token_value value
         else float_or_zero value.
Proof.
  unfold parse_nutrition_value. rewrite blank_guard.
  destruct (blank value) eqn:Hb; [reflexivity|].
  destruct (cleaned_not_blank _ Hb) as (c & Hc & Hsp & Hno).
  rewrite Hc. cbn [bind]. unfold first_token_value, float_or_zero.
  destruct (contains " " value).
  - destruct (Hsp eq_refl) as [rest ->].
    destruct (float c) as [x|[]]; reflexivity.
  - rewrite (Hno eq_refl). destruct (float value) as [x|[]]; reflexivity.
Qed.

Lemma parse_nutrition_value_unparsable value :
  unparsable value -> parse_nutrition_value value = zero.
Proof.
  unfold parse_nutrition_value. rewrite blank_guard.
  intros [->|(c & e & Hc & He)]; [reflexivity|].
  destruct (blank value); [reflexivity|].
  rewrite Hc. cbn [bind]. rewrite He. now destruct e.
Qed.




End NumericField.

(** C4, as stated, fails when the unit is set off by white space other
    than a space: the fields "10<tab>g" and "10<no-break space>g" are not
    split, [float] refuses them and the parser returns 0.0, while the first
    white-space token, "10", parses to 10.0. *)
Lemma unit_after_other_space_not_split :
  (parse_nutrition_value ten_tab_g = zero
   /\ split_ws ten_tab_g = ["10"; "g"]
   /\ first_token_value ten_tab_g = S754_finite false 5629499534213120 (-49)
   /\ parse_nutrition_value ten_tab_g <> first_token_value ten_tab_g)
  /\ (parse_nutrition_value ten_nbsp_g = zero
      /\ split_ws ten_nbsp_g = ["10"; "g"]
      /\ parse_nutrition_value ten_nbsp_g <> first_token_value ten_nbsp_g)
  /\ float "10" = Ok (S754_finite false 5629499534213120 (-49)).
Proof.
  split; [|split]; [repeat split; discriminate|repeat split; discriminate|reflexivity].
Qed.

(** C4, amended: a blank string parses to 0.0.  A string that contains a
    space character is split on white space and its first token is parsed
    as a number; any other string is parsed as a number as a whole; in
    both cases a text that is not a number gives 0.0 instead of a failure.
    In particular a string made of a number without white space, a space
    and a unit gives the number. *)
Theorem numeric_field_parser :
  (forall value,
      parse_nutrition_value value
      = if blank value then zero
        else if contains " " value then first_token_value value
             else float_or_zero value)
  /\ (forall value, unparsable value -> parse_nutrition_value value = zero)
  /\ (forall number unit x,
         no_space number = true ->
         float number = Ok x ->
         parse_nutrition_value (number ++ " " ++ unit)%string = x)
  /\ parse_nutrition_value "10 g" = S754_finite false 5629499534213120 (-49).
Proof.
  split; [exact parse_nutrition_value_eq|].
  split; [exact parse_nutrition_value_unparsable|].
  split; [|reflexivity].
  intros number unit x Hns Hx.
  assert (Hne : number <> "") by (intros ->; discriminate Hx).
  rewrite parse_nutrition_value_eq.
  assert (Hb : blank (number ++ " " ++ unit)%string = false).
  { unfold blank. rewrite all_chars_app.
    destruct number as [|c number]; [congruence|].
    unfold no_space in Hns. cbn [all_chars] in *.
    apply andb_true_iff in Hns. destruct Hns as [Hc _].
    apply negb_true_iff in Hc. now rewrite Hc. }
  rewrite Hb.
  assert (Hsp : contains " " (number ++ " " ++ unit)%string = true).
  { apply contains_app_r, contains_startswith, startswith_app. }
  rewrite Hsp. unfold first_token_value.
  change (" " ++ unit)%string with (String " " unit).
  rewrite split_ws_token by (try assumption; reflexivity).
  unfold float_or_zero. now rewrite Hx.
Qed.

Lemma numeric_field_parser_witness :
  no_space "12.5" = true
  /\ float "12.5" = Ok (S754_finite false 7036874417766400 (-49))
  /\ parse_nutrition_value ("12.5" ++ " " ++ "mg")%string
     = S754_finite false 7036874417766400 (-49).
Proof.
  split; [reflexivity|]. split; [reflexivity|].
  apply (proj1 (proj2 (proj2 numeric_field_parser)) "12.5" "mg"); reflexivity.
Defined.




(** Raw fields with a minus sign that is not a leading one are covered:
    an exponent, and a remark after the unit. *)
Example inner_minus_covered :
  (minus_led "1e-05" = false /\ spells_nan "1e-05" = false
   /\ leb zero (parse_nutrition_value "1e-05") = true)
  /\ (minus_led "5 g - approx" = false /\ spells_nan "5 g - approx" = false
      /\ leb zero (parse_nutrition_value "5 g - approx") = true)
  /\ (minus_led " -5 g" = true /\ spells_nan "+NaN mg" = true).
Proof. repeat split. Qed.

Lemma catalog_written_witness :
  member "productCount" (dump (make_catalog "2024-01-01T00:00:00+00:00" [cola_item; cola_item]))
  = Some (JInt 2)
  /\ 2 = Z.of_nat (length (map dump_item [cola_item; cola_item])).
Proof.
  split; [reflexivity|].
  apply (proj2 (proj2 (proj2 (proj1 (proj2
           (catalog_written "2024-01-01T00:00:00+00:00" [cola_item; cola_item])))))
           2 (map dump_item [cola_item; cola_item]));
    reflexivity.
Defined.

(** * Further properties *)

(** ** Trimming and lowercasing *)

Section Trimmed.
Implicit Types (s t : string) (c : ascii) (sp : ascii -> bool).

Lemma lower_char_idem c : lower_char (lower_char c) = lower_char c.
Proof. destruct c as [[] [] [] [] [] [] [] []]; reflexivity. Qed.

Lemma lower_idem s : lower (lower s) = lower s.
Proof.
  induction s as [|c s IH]; [reflexivity|].
  cbn [lower]. now rewrite lower_char_idem, IH.
Qed.

Lemma ltrim_lower s : ltrim isspace (lower s) = lower (ltrim isspace s).
Proof.
  induction s as [|c s IH]; [reflexivity|].
  cbn [lower ltrim]. rewrite isspace_lower_char.
  destruct (isspace c); [exact IH|reflexivity].
Qed.

Lemma rtrim_lower s : rtrim isspace (lower s) = lower (rtrim isspace s).
Proof.
  induction s as [|c s IH]; [reflexivity|].
  cbn [lower rtrim]. rewrite IH, isspace_lower_char.
  destruct (rtrim isspace s); cbn [lower]; [|reflexivity].
  now destruct (isspace c).
Qed.

Lemma strip_lower s : strip (lower s) = lower (strip s).
Proof. unfold strip. now rewrite ltrim_lower, rtrim_lower. Qed.

Lemma no_lead_ltrim sp s : no_lead sp (ltrim sp s).
Proof.
  induction s as [|c s IH]; cbn [ltrim]; [exact I|].
  destruct (sp c) eqn:E; [exact IH|exact E].
Qed.

Lemma no_lead_rtrim sp s : no_lead sp s -> no_lead sp (rtrim sp s).
Proof.
  destruct s as [|c s]; cbn [rtrim no_lead]; [auto|]. intros Hc.
  destruct (rtrim sp s); [now rewrite Hc|exact Hc].
Qed.

Lemma ltrim_no_lead sp s : no_lead sp s -> ltrim sp s = s.
Proof. destruct s as [|c s]; cbn; [reflexivity|]. now intros ->. Qed.

Lemma rtrim_idem sp s : rtrim sp (rtrim sp s) = rtrim sp s.
Proof.
  induction s as [|c s IH]; [reflexivity|].
  cbn [rtrim]. destruct (rtrim sp s) as [|c' r] eqn:E.
  - destruct (sp c) eqn:Ec; [reflexivity|]. cbn [rtrim]. now rewrite Ec.
  - change (rtrim sp (String c (String c' r)))
      with (match rtrim sp (String c' r) with
            | EmptyString => if sp c then EmptyString else String c EmptyString
            | r' => String c r'
            end).
    rewrite IH. reflexivity.
Qed.

(** Trimming twice is trimming once. *)
Lemma strip_idem s : strip (strip s) = strip s.
Proof.
  unfold strip.
  rewrite (ltrim_no_lead isspace (rtrim isspace (ltrim isspace s))).
  - apply rtrim_idem.
  - apply no_lead_rtrim, no_lead_ltrim.
Qed.

(** A trimmed and lowercased text stays as it is under both operations. *)
Lemma lower_strip_fixed s :
  lower (lower (strip s)) = lower (strip s)
  /\ strip (lower (strip s)) = lower (strip s).
Proof.
  split; [apply lower_idem|]. now rewrite strip_lower, strip_idem.
Qed.

End Trimmed.

(** ** The fields of an emitted item *)

Section EmittedItem.
Implicit Types (row : gmap string string) (item : CatalogItem).

Lemma or_none_strip s :
  (or_none (strip s) = None <-> blank s = true)
  /\ (forall b, or_none (strip s) = Some b ->
                b = strip s /\ b <> "" /\ strip b = b).
Proof.
  unfold or_none. destruct (String.eqb_spec (strip s) "") as [E|E].
  - split; [|discriminate]. split; [intros _; now apply strip_empty|reflexivity].
  - split.
    + split; [discriminate|]. intros Hb. apply strip_empty in Hb. congruence.
    + intros b [= <-]. split; [reflexivity|]. split; [exact E|apply strip_idem].
Qed.

Lemma process_product_accepts row item :
  process_product row = Ok (Some item) ->
  String.eqb (strip (get row "code" "")) "" = false
  /\ String.eqb (strip (get row "product_name" "")) "" = false
  /\ (String.length (strip (get row "code" "")) <? 8)%nat = false
  /\ eqb (calories (nutrition item)) zero
     && eqb (protein (nutrition item)) zero
     && eqb (carbohydrates (nutrition item)) zero = false
  /\ brand item = or_none (strip (get row "brands" ""))
  /\ servingSize item = or_none (strip (get row "serving_size" "")).
Proof.
  rewrite process_product_eq. cbv zeta.
  destruct (String.eqb (strip (get row "code" "")) ""); [discriminate|].
  destruct (String.eqb (strip (get row "product_name" "")) ""); [discriminate|].
  destruct (String.length (strip (get row "code" "")) <? 8)%nat; [discriminate|].
  cbn [orb].
  destruct (_ && _ && _) eqn:E; [discriminate|].
  intros [= <-]. cbn [nutrition calories protein carbohydrates brand servingSize].
  now rewrite E.
Qed.

End EmittedItem.

(** X1: an emitted item carries the identifier and the name of its row
    without surrounding white space; the identifier has at least 8
    characters, the name is not empty, and calories, protein and
    carbohydrates are not all zero. *)
Theorem emitted_item_valid (row : gmap string string) (item : CatalogItem) :
  process_product row = Ok (Some item) ->
  (barcode item = strip (get row "code" "")
   /\ strip (barcode item) = barcode item
   /\ (8 <= String.length (barcode item))%nat)
  /\ (name item = strip (get row "product_name" "")
      /\ strip (name item) = name item
      /\ name item <> "")
  /\ ~ (eqb (calories (nutrition item)) zero = true
        /\ eqb (protein (nutrition item)) zero = true
        /\ eqb (carbohydrates (nutrition item)) zero = true).
Proof.
  intros H.
  destruct (process_product_Some _ _ H) as (Hb & Hn & _).
  destruct (process_product_accepts _ _ H) as (_ & En & El & Ez & _).
  rewrite Hb, Hn, !strip_idem.
  apply Nat.ltb_ge in El. apply eqb_empty_false in En.
  repeat split; try assumption.
  intros (H1 & H2 & H3). rewrite H1, H2, H3 in Ez. discriminate.
Qed.

Lemma emitted_item_valid_witness :
  process_product cola_row = Ok (Some cola_item)
  /\ (8 <= String.length (barcode cola_item))%nat.
Proof.
  assert (H : process_product cola_row = Ok (Some cola_item)) by reflexivity.
  split; [exact H|].
  apply (emitted_item_valid cola_row cola_item H).
Defined.

(** X2: the brand of an emitted item is absent exactly when the raw brand
    is missing or blank, and is otherwise the raw brand without surrounding
    white space, never the empty string; the same holds for the serving
    size. *)
Theorem optional_fields (row : gmap string string) (item : CatalogItem) :
  process_product row = Ok (Some item) ->
  ((brand item = None <-> blank (get row "brands" "") = true)
   /\ (forall b, brand item = Some b ->
                 b = strip (get row "brands" "") /\ b <> "" /\ strip b = b))
  /\ ((servingSize item = None <-> blank (get row "serving_size" "") = true)
      /\ (forall b, servingSize item = Some b ->
                    b = strip (get row "serving_size" "") /\ b <> "" /\ strip b = b)).
Proof.
  intros H. destruct (process_product_accepts _ _ H) as (_ & _ & _ & _ & -> & ->).
  split; apply or_none_strip.
Qed.

Lemma optional_fields_witness :
  process_product cola_row = Ok (Some cola_item)
  /\ (brand cola_item = None <-> blank (get cola_row "brands" "") = true).
Proof.
  assert (H : process_product cola_row = Ok (Some cola_item)) by reflexivity.
  split; [exact H|].
  apply (optional_fields cola_row cola_item H).
Defined.

(** X3: the category of an emitted item is lowercase and has no
    surrounding white space: lowercasing or trimming it again changes
    nothing. *)
Theorem category_normal_form (row : gmap string string) (item : CatalogItem) :
  process_product row = Ok (Some item) ->
  lower (category item) = category item
  /\ strip (category item) = category item.
Proof.
  intros H. destruct (process_product_Some _ _ H) as (_ & _ & _ & -> & _).
  destruct (get_truthy row "categories_en"); [|split; reflexivity].
  apply lower_strip_fixed.
Qed.

Lemma category_normal_form_witness :
  process_product cola_row = Ok (Some cola_item)
  /\ lower (category cola_item) = category cola_item.
Proof.
  assert (H : process_product cola_row = Ok (Some cola_item)) by reflexivity.
  split; [exact H|].
  apply (category_normal_form cola_row cola_item H).
Defined.

(** X4: every entry that the ingredient parser returns is lowercase and
    has no surrounding white space. *)
Theorem ingredients_normal_form (text : string) :
  Forall (fun i => lower i = i /\ strip i = i) (parse_ingredients text).
Proof.
  rewrite parse_ingredients_eq. destruct (blank text); [constructor|].
  apply Forall_firstn.
  assert (Hfrag : forall seps,
             Forall (fun i => lower i = i /\ strip i = i)
                    (split_ingredients seps text)).
  { induction seps as [|sep seps IH]; cbn [split_ingredients]; [constructor|].
    destruct (contains sep text); [|exact IH].
    apply List.Forall_forall. intros i Hi. apply List.in_map_iff in Hi.
    destruct Hi as (j & <- & _). apply lower_strip_fixed. }
  specialize (Hfrag separators).
  destruct (split_ingredients separators text); [|exact Hfrag].
  constructor; [apply lower_strip_fixed|constructor].
Qed.

(** ** The row filter and the scan count *)

Section Filter.
Implicit Types (s a b : string) (row : gmap string string).

Lemma startswith_app_contains a b s :
  startswith (a ++ b)%string s = true -> contains b s = true.
Proof.
  revert s. induction a as [|c a IH]; intros s.
  - rewrite append_empty. apply contains_startswith.
  - rewrite append_String. destruct s as [|c' s]; cbn [startswith]; [discriminate|].
    rewrite andb_true_iff. intros [_ H]. cbn [contains].
    rewrite (IH _ H). apply orb_true_r.
Qed.

(** A text that contains [a ++ b] contains [b]. *)
Lemma contains_app_suffix a b s :
  contains (a ++ b)%string s = true -> contains b s = true.
Proof.
  induction s as [|c s IH]; cbn [contains].
  - rewrite orb_false_r. apply startswith_app_contains.
  - rewrite orb_true_iff. intros [H|H].
    + now apply startswith_app_contains in H.
    + rewrite (IH H). apply orb_true_r.
Qed.

End Filter.

(** X5: the row filter keeps a row exactly when its countries-tags field,
    lowercased, contains "united-states": the test for the namespaced tag
    adds nothing.  A row without the field is dropped. *)
Theorem filter_single_test (row : gmap string string) :
  us_product row = contains "united-states" (lower (get row "countries_tags" ""))
  /\ (row !! "countries_tags" = None -> us_product row = false).
Proof.
  assert (H : us_product row
              = contains "united-states" (lower (get row "countries_tags" ""))).
  { unfold us_product. cbv zeta.
    destruct (contains "united-states" _) eqn:E1; [reflexivity|].
    destruct (contains "en:united-states" _) eqn:E2; [|reflexivity].
    apply (contains_app_suffix "en:" "united-states") in E2. congruence. }
  split; [exact H|]. intros Hnone. rewrite H. unfold get. now rewrite Hnone.
Qed.

(** X6: reading the scan count never raises.  The count is 0 when the
    field is missing or empty and when it is not an integer literal, and
    the integer that the field denotes otherwise. *)
Theorem scan_count_default (row : gmap string string) :
  exists n,
    scan_count row = Ok n
    /\ (row !! "unique_scans_n" = None \/ row !! "unique_scans_n" = Some "" ->
        n = 0)
    /\ (forall v, row !! "unique_scans_n" = Some v -> v <> "" ->
          (forall m, int v = Ok m -> n = m)
          /\ ((forall m, int v <> Ok m) -> n = 0)).
Proof.
  unfold scan_count, get. cbv zeta.
  destruct (row !! "unique_scans_n") as [v|] eqn:E; cbn [default from_option id].
  - destruct (String.eqb_spec v "") as [->|Hv].
    + exists 0. split; [reflexivity|]. split; [reflexivity|].
      intros v' [= <-] Hne. congruence.
    + cbv iota. destruct (int v) as [m|e] eqn:Ei.
      * exists m. split; [reflexivity|]. split.
        -- intros [H|[= H]]; [discriminate|congruence].
        -- intros v' [= <-] _. split; [intros m' Hm; congruence|].
           intros Hno. now destruct (Hno m).
      * apply int_raises in Ei as Ee. subst e. exists 0. split; [reflexivity|].
        split; [reflexivity|]. intros v' [= <-] _.
        split; [intros m Hm; congruence|reflexivity].
  - exists 0. split; [reflexivity|]. split; [reflexivity|]. discriminate.
Qed.

(** ** The loop, the truncation and the catalogue *)

Section Accumulation.
Implicit Types (row : gmap string string) (rows : list (gmap string string))
         (st : reading).

Lemma read_row_accepted st row :
  read_row st row
  = Ok {| found := found st ++ accepted row;
          skipped := skipped st + length (List.filter rejected [row]) |}.
Proof.
  unfold read_row, accepted, rejected. cbn [List.filter].
  destruct (us_product row); cbn [andb length].
  - destruct (process_product_total row) as [[p|] ->]; cbn [bind length].
    + destruct (scan_count_total row) as [n ->]. cbn [bind].
      now rewrite Nat.add_0_r.
    + now rewrite app_nil_r, Nat.add_1_r.
  - destruct st. cbn [found skipped]. now rewrite app_nil_r, Nat.add_0_r.
Qed.

Lemma read_rows_accepted rows st :
  read_rows st rows
  = Ok {| found := found st ++ flat_map accepted rows;
          skipped := skipped st + length (List.filter rejected rows) |}.
Proof.
  revert st. induction rows as [|row rows IH]; intros st; cbn [read_rows].
  - destruct st. cbn. now rewrite app_nil_r, Nat.add_0_r.
  - rewrite read_row_accepted. cbn [bind]. rewrite IH. cbn [found skipped flat_map].
    f_equal. f_equal.
    + now rewrite app_assoc.
    + cbn [List.filter]. destruct (rejected row); cbn [length]; lia.
Qed.

Lemma accepted_or_rejected rows :
  (length (flat_map accepted rows) + length (List.filter rejected rows)
   = length (List.filter us_product rows))%nat.
Proof.
  induction rows as [|row rows IH]; [reflexivity|].
  cbn [flat_map List.filter]. rewrite length_app.
  unfold accepted at 1, rejected at 1.
  destruct (us_product row); cbn [andb length]; [|exact IH].
  destruct (process_product_total row) as [[p|] ->].
  - destruct (scan_count_total row) as [n ->]. cbn [length]. lia.
  - cbn [length]. lia.
Qed.

Lemma length_insert_desc (A : Type) (x : Z * A) (l : list (Z * A)) :
  length (insert_desc x l) = S (length l).
Proof.
  induction l as [|y l IH]; cbn [insert_desc]; [reflexivity|].
  destruct (fst y <=? fst x); cbn [length]; [reflexivity|now rewrite IH].
Qed.

Lemma length_sort_desc (A : Type) (l : list (Z * A)) :
  length (sort_desc l) = length l.
Proof.
  induction l as [|x l IH]; cbn [sort_desc]; [reflexivity|].
  now rewrite length_insert_desc, IH.
Qed.

Lemma Permutation_insert_desc (A : Type) (x : Z * A) (l : list (Z * A)) :
  Permutation (x :: l) (insert_desc x l).
Proof.
  induction l as [|y l IH]; cbn [insert_desc]; [reflexivity|].
  destruct (fst y <=? fst x); [reflexivity|].
  etransitivity; [apply perm_swap|]. now apply perm_skip.
Qed.

Lemma Permutation_sort_desc (A : Type) (l : list (Z * A)) :
  Permutation l (sort_desc l).
Proof.
  induction l as [|x l IH]; cbn [sort_desc]; [reflexivity|].
  etransitivity; [apply perm_skip, IH|]. apply Permutation_insert_desc.
Qed.

Lemma descending_app (A : Type) (l1 l2 : list (Z * A)) :
  descending (l1 ++ l2) ->
  forall x y, In x l1 -> In y l2 -> fst y <= fst x.
Proof.
  unfold descending. induction l1 as [|z l1 IH]; intros H x y Hx Hy; [destruct Hx|].
  cbn in H. inversion H as [|? ? Hs Hall]; subst.
  destruct Hx as [->|Hx].
  - rewrite List.Forall_forall in Hall. apply Hall.
    apply List.in_or_app. now right.
  - now apply (IH Hs x y).
Qed.

End Accumulation.

(** X7: the loop accumulates, in input order, the scan count and the item
    of every row that passes the filter and the normalizer; it counts as
    skipped the rows that pass the filter and that the normalizer rejects,
    and it counts the rows of other countries nowhere. *)
Theorem loop_accumulates (rows : list (gmap string string)) :
  read_rows {| found := []; skipped := 0 |} rows
  = Ok {| found := flat_map accepted rows;
          skipped := length (List.filter rejected rows) |}
  /\ (length (flat_map accepted rows) + length (List.filter rejected rows)
      = length (List.filter us_product rows))%nat.
Proof.
  split; [|apply accepted_or_rejected].
  now rewrite read_rows_accepted.
Qed.

(** X8: a catalogue that [main] writes holds as many products as its
    product count says: for a limit that is not negative, the smaller of
    the limit and the number of accepted rows; for a negative limit, the
    number of accepted rows less the size of the limit, and none when that
    is below zero. *)
Theorem catalog_size
    (rows : list (gmap string string)) (limit : Z) (now : string) (c : Catalog) :
  main rows limit now = Ok c ->
  productCount c = Z.of_nat (length (products c))
  /\ productCount c
     = if limit <? 0
       then Z.max 0 (Z.of_nat (length (flat_map accepted rows)) + limit)
       else Z.min limit (Z.of_nat (length (flat_map accepted rows))).
Proof.
  unfold main. rewrite read_rows_accepted. cbn [bind found app].
  intros [= <-]. split; [reflexivity|].
  cbn [productCount make_catalog]. unfold top_products, ranked, slice_to.
  rewrite length_map.
  destruct (limit <? 0) eqn:E; rewrite List.length_firstn, length_sort_desc.
  - apply Z.ltb_lt in E. lia.
  - apply Z.ltb_ge in E. lia.
Qed.

Lemma catalog_size_witness :
  main [french_row; cola_row; cola_row] 1 "2024-01-01T00:00:00+00:00"
  = Ok (make_catalog "2024-01-01T00:00:00+00:00" [cola_item])
  /\ productCount (make_catalog "2024-01-01T00:00:00+00:00" [cola_item])
     = Z.min 1 (Z.of_nat (length (flat_map accepted [french_row; cola_row; cola_row]))).
Proof.
  assert (H : main [french_row; cola_row; cola_row] 1 "2024-01-01T00:00:00+00:00"
              = Ok (make_catalog "2024-01-01T00:00:00+00:00" [cola_item]))
    by reflexivity.
  split; [exact H|].
  exact (proj2 (catalog_size _ _ _ _ H)).
Defined.

(** X9: whatever the limit, the sorted list is the retained pairs followed
    by the dropped ones; together they are the accumulated pairs, each as
    often as it was accumulated; and no dropped pair has a higher score
    than a retained one. *)
Theorem retained_outrank_dropped (A : Type) (found : list (Z * A)) (limit : Z) :
  exists dropped,
    sort_desc found = ranked found limit ++ dropped
    /\ Permutation found (ranked found limit ++ dropped)
    /\ (forall x y, In x (ranked found limit) -> In y dropped -> fst y <= fst x).
Proof.
  unfold ranked.
  destruct (slice_to_prefix _ (sort_desc found) limit) as [n ->].
  exists (skipn n (sort_desc found)).
  rewrite firstn_skipn. split; [reflexivity|]. split.
  - apply Permutation_sort_desc.
  - apply descending_app. rewrite firstn_skipn. apply descending_sort_desc.
Qed.

(** X10: every product of the catalogue that [main] writes is the item
    that the normalizer returns for some input row that passes the
    filter. *)
Theorem products_from_rows
    (rows : list (gmap string string)) (limit : Z) (now : string) (c : Catalog) :
  main rows limit now = Ok c ->
  forall p, In p (products c) ->
    exists row,
      In row rows /\ us_product row = true /\ process_product row = Ok (Some p).
Proof.
  unfold main. rewrite read_rows_accepted. cbn [bind found app].
  intros [= <-] p Hp. cbn [products make_catalog] in Hp.
  unfold top_products, ranked in Hp. apply List.in_map_iff in Hp.
  destruct Hp as ([n p'] & Hsnd & Hin). cbn [snd] in Hsnd. subst p'.
  destruct (slice_to_prefix _ (sort_desc (flat_map accepted rows)) limit) as [k Hk].
  rewrite Hk in Hin.
  assert (Hs : In (n, p) (sort_desc (flat_map accepted rows))).
  { rewrite <- (firstn_skipn k (sort_desc _)). apply List.in_or_app. now left. }
  apply (Permutation_in _ (Permutation_sym (Permutation_sort_desc _ _))) in Hs.
  apply List.in_flat_map in Hs. destruct Hs as (row & Hrow & Hacc).
  exists row. split; [exact Hrow|].
  unfold accepted in Hacc. destruct (us_product row); [|destruct Hacc].
  split; [reflexivity|].
  destruct (process_product row) as [[q|]|]; try destruct Hacc.
  destruct (scan_count row); [|destruct Hacc].
  destruct Hacc as [[= _ ->]|[]]. reflexivity.
Qed.

Lemma products_from_rows_witness :
  main [french_row; cola_row] 5 "2024-01-01T00:00:00+00:00"
  = Ok (make_catalog "2024-01-01T00:00:00+00:00" [cola_item])
  /\ exists row,
       In row [french_row; cola_row]
       /\ us_product row = true /\ process_product row = Ok (Some cola_item).
Proof.
  assert (H : main [french_row; cola_row] 5 "2024-01-01T00:00:00+00:00"
              = Ok (make_catalog "2024-01-01T00:00:00+00:00" [cola_item]))
    by reflexivity.
  split; [exact H|].
  apply (products_from_rows _ _ _ _ H cola_item). now left.
Defined.

(** X11: [main] writes the catalogue it would write for the rows that pass
    the filter alone: rows of other countries, however many and wherever
    they stand, change nothing. *)
Theorem main_of_filtered (rows : list (gmap string string)) (limit : Z) (now : string) :
  main rows limit now = main (List.filter us_product rows) limit now.
Proof.
  unfold main. rewrite !read_rows_accepted. cbn [bind found app].
  assert (E : flat_map accepted (List.filter us_product rows) = flat_map accepted rows).
  { induction rows as [|row rows IH]; [reflexivity|].
    cbn [List.filter flat_map]. destruct (us_product row) eqn:Eu.
    - cbn [flat_map]. now rewrite IH.
    - rewrite IH. unfold accepted at 2. now rewrite Eu. }
  now rewrite E.
Qed.

(** X12: raising a limit that is not negative only appends products: the
    catalogue for the smaller limit is the beginning of the catalogue for
    the larger one. *)
Theorem limit_monotone (A : Type) (found : list (Z * A)) (small large : Z) :
  0 <= small -> small <= large ->
  exists more,
    top_products found large = top_products found small ++ more.
Proof.
  intros H0 Hle. unfold top_products, ranked.
  rewrite !slice_to_nonneg by lia.
  exists (map snd (skipn (Z.to_nat small) (firstn (Z.to_nat large) (sort_desc found)))).
  rewrite <- map_app. f_equal.
  rewrite <- (firstn_skipn (Z.to_nat small) (firstn (Z.to_nat large) _)) at 1.
  f_equal. rewrite List.firstn_firstn. f_equal. lia.
Qed.

Lemma limit_monotone_witness :
  0 <= 1 /\ 1 <= 2
  /\ exists more,
       top_products [(10, "a"); (50, "b"); (30, "c")] 2
       = top_products [(10, "a"); (50, "b"); (30, "c")] 1 ++ more.
Proof.
  split; [lia|]. split; [lia|].
  apply (limit_monotone string [(10, "a"); (50, "b"); (30, "c")] 1 2); lia.
Defined.

(** ** What the normalizer reads *)

(** X13: the normalizer reads the fourteen keys of [read_keys] and nothing
    else: two rows that agree on these keys get the same result, so
    setting any other key of a row changes nothing. *)
Theorem normalizer_reads (row1 row2 : gmap string string) :
  (forall k, In k read_keys -> row1 !! k = row2 !! k) ->
  process_product row1 = process_product row2
  /\ (forall k v, ~ In k read_keys ->
                  process_product (<[k:=v]> row1) = process_product row1).
Proof.
  assert (Hagree : forall r1 r2 : gmap string string,
             (forall k, In k read_keys -> r1 !! k = r2 !! k) ->
             process_product r1 = process_product r2).
  { intros r1 r2 H. unfold process_product, get, get_truthy.
    repeat match goal with
           | |- context [r1 !! ?k] =>
               rewrite (H k)
                 by (unfold read_keys; repeat (first [left; reflexivity | right]))
           end.
    reflexivity. }
  intros H. split; [now apply Hagree|].
  intros k v Hk. apply Hagree. intros k' Hk'.
  apply lookup_insert_ne. congruence.
Qed.

Lemma normalizer_reads_witness :
  (forall k, In k read_keys ->
             cola_row !! k = <["countries_tags" := "en:france"]> cola_row !! k)
  /\ process_product cola_row
     = process_product (<["countries_tags" := "en:france"]> cola_row).
Proof.
  assert (H : forall k, In k read_keys ->
                cola_row !! k = <["countries_tags" := "en:france"]> cola_row !! k).
  { intros k Hk. unfold read_keys in Hk. cbn [In] in Hk.
    repeat (destruct Hk as [<-|Hk]; [vm_compute; reflexivity|]). destruct Hk. }
  split; [exact H|].
  exact (proj1 (normalizer_reads cola_row
                  (<["countries_tags" := "en:france"]> cola_row) H)).
Defined.

(** ** Splitting on a separator *)

Section Split.
Implicit Types (sep s t f : string) (c : ascii) (r : list string).

Lemma length_append s t :
  String.length (s ++ t)%string = (String.length s + String.length t)%nat.
Proof.
  induction s as [|c s IH]; [reflexivity|].
  rewrite append_String. cbn [String.length]. now rewrite IH.
Qed.

Lemma append_assoc s t f : ((s ++ t) ++ f)%string = (s ++ (t ++ f))%string.
Proof.
  induction s as [|c s IH]; [reflexivity|].
  rewrite !append_String. now rewrite IH.
Qed.

Lemma startswith_eq sep s :
  startswith sep s = true -> exists rest, s = (sep ++ rest)%string.
Proof.
  revert s. induction sep as [|c sep IH]; intros s; [now exists s|].
  destruct s as [|c' s]; cbn [startswith]; [discriminate|].
  rewrite andb_true_iff, Ascii.eqb_eq. intros [-> H].
  destruct (IH _ H) as [rest ->]. now exists rest.
Qed.

Lemma startswith_app_r sep s t :
  startswith sep s = true -> startswith sep (s ++ t)%string = true.
Proof.
  intros H. destruct (startswith_eq _ _ H) as [rest ->].
  rewrite append_assoc. apply startswith_app.
Qed.

(** The characters of a matched separator are passed over. *)
Lemma split_from_skip sep pre rest :
  split_from sep (pre ++ rest)%string (String.length pre) = split_from sep rest 0.
Proof.
  induction pre as [|c pre IH]; [reflexivity|].
  rewrite append_String. cbn [String.length split_from]. exact IH.
Qed.

Lemma join_cons sep c f r :
  join sep (String c f :: r) = String c (join sep (f :: r)).
Proof. destruct r; reflexivity. Qed.

Lemma join_head sep f r : exists tail, join sep (f :: r) = (f ++ tail)%string.
Proof.
  destruct r as [|f' r]; cbn [join].
  - exists "". clear. induction f as [|c f IH]; [reflexivity|].
    rewrite append_String. now rewrite <- IH.
  - eauto.
Qed.

Lemma split_from_join sep n :
  sep <> "" ->
  forall s, (String.length s <= n)%nat ->
    join sep (fst (split_from sep s 0) :: snd (split_from sep s 0)) = s
    /\ Forall (fun f => contains sep f = false)
              (fst (split_from sep s 0) :: snd (split_from sep s 0)).
Proof.
  intros Hsep.
  assert (Hnil : contains sep "" = false).
  { destruct sep; [congruence|reflexivity]. }
  induction n as [|n IH]; intros s Hlen.
  - destruct s; [|cbn in Hlen; lia]. cbn. split; [reflexivity|].
    constructor; [exact Hnil|constructor].
  - destruct s as [|c s]; [cbn; split; [reflexivity|];
                           constructor; [exact Hnil|constructor]|].
    cbn [split_from]. destruct (startswith sep (String c s)) eqn:E.
    + destruct (startswith_eq _ _ E) as [rest Hrest].
      destruct sep as [|c' sep']; [congruence|].
      rewrite append_String in Hrest. injection Hrest as <- ->.
      cbn [String.length Nat.pred]. rewrite split_from_skip.
      assert (Hr : (String.length rest <= n)%nat).
      { cbn [String.length] in Hlen. rewrite length_append in Hlen. lia. }
      destruct (IH rest Hr) as [Hj Hf].
      destruct (split_from (String c sep') rest 0) as [f' r']. cbn [fst snd] in *.
      split.
      * change (join (String c sep') ("" :: f' :: r'))
          with ("" ++ String c sep' ++ join (String c sep') (f' :: r'))%string.
        now rewrite Hj.
      * constructor; [exact Hnil|exact Hf].
    + assert (Hr : (String.length s <= n)%nat) by (cbn in Hlen; lia).
      destruct (IH s Hr) as [Hj Hf].
      destruct (split_from sep s 0) as [f' r']. cbn [fst snd] in *.
      split.
      * rewrite join_cons. now rewrite Hj.
      * inversion Hf as [|? ? Hf' Hr']; subst. constructor; [|exact Hr'].
        cbn [contains]. rewrite Hf', orb_false_r.
        destruct (startswith sep (String c f')) eqn:E'; [|reflexivity].
        destruct (join_head sep f' r') as [tail Ht].
        apply (startswith_app_r _ _ tail) in E'.
        rewrite append_String, <- Ht in E'. congruence.
Qed.

End Split.

(** X14: splitting a text on a separator loses nothing and leaves no
    separator behind: the fragments, joined with the separator, give the
    text back, there is always at least one fragment, and no fragment
    contains the separator. *)
Theorem split_join (sep s : string) :
  sep <> "" ->
  join sep (split sep s) = s
  /\ split sep s <> []
  /\ Forall (fun f => contains sep f = false) (split sep s).
Proof.
  intros Hsep.
  destruct (split_from_join sep (String.length s) Hsep s (le_n _)) as [Hj Hf].
  unfold split. destruct (split_from sep s 0) as [f r]. cbn [fst snd] in *.
  split; [exact Hj|]. split; [discriminate|exact Hf].
Qed.

Lemma split_join_witness :
  ", " <> ""
  /\ join ", " (split ", " "Water, Sugar, Salt") = "Water, Sugar, Salt".
Proof.
  split; [discriminate|].
  apply (split_join ", " "Water, Sugar, Salt"). discriminate.
Defined.

(** ** The number text *)

Lemma split_ws_tokens (s : string) :
  Forall (fun t => t <> "" /\ no_space t = true) (split_ws s).
Proof.
  unfold no_space.
  induction s as [|c s IH]; cbn [split_ws]; [constructor|].
  destruct (isspace c) eqn:Ec; [exact IH|].
  assert (Hone : String c "" <> ""
                 /\ all_chars (fun a => negb (isspace a)) (String c "") = true).
  { split; [discriminate|]. cbn [all_chars]. now rewrite Ec. }
  destruct s as [|c' s'].
  - constructor; [exact Hone|constructor].
  - destruct (isspace c').
    + constructor; [exact Hone|exact IH].
    + destruct (split_ws (String c' s')) as [|w ws].
      * constructor; [exact Hone|constructor].
      * inversion IH as [|? ? [_ Hw] Hws]; subst.
        constructor; [|exact Hws]. split; [discriminate|].
        cbn [all_chars]. now rewrite Ec, Hw.
Qed.

(** X15: once the blank check of the numeric field parser has passed, the
    number text exists: indexing the tokens never raises [IndexError].
    When the field contains a space the text is its first token, which is
    not empty and holds no white space; otherwise it is the field itself. *)
Theorem number_text_exists (value : string) :
  blank value = false ->
  exists c,
    cleaned value = Ok c
    /\ (contains " " value = true ->
        c <> "" /\ no_space c = true /\ exists rest, split_ws value = c :: rest)
    /\ (contains " " value = false -> c = value).
Proof.
  intros Hb. destruct (cleaned_not_blank _ Hb) as (c & Hc & Hsp & Hno).
  exists c. split; [exact Hc|]. split; [|exact Hno].
  intros H. destruct (Hsp H) as [rest Hrest].
  pose proof (split_ws_tokens value) as Htok. rewrite Hrest in Htok.
  inversion Htok as [|? ? [H1 H2] _]; subst. eauto.
Qed.

Lemma number_text_exists_witness :
  blank "42 kcal" = false /\ cleaned "42 kcal" = Ok "42".
Proof.
  split; [reflexivity|].
  destruct (number_text_exists "42 kcal" eq_refl) as (c & Hc & Hsp & _).
  destruct (Hsp eq_refl) as (_ & _ & rest & Hrest).
  injection Hrest as <- _. exact Hc.
Defined.
